(** * SnapScroll: the layout arithmetic of the scroll-snapping carousel

    A shallow embedding of the [SnapScroll] class: breakpoint resolution
    ([getItemsToShow], [getItemsToScroll]), the per-item width
    ([getItemWidth]), navigation ([prev], [next], [scrollTo]), the drag
    handlers ([startDrag], [drag], [endDrag], [snapToNearest]) and the
    resize handler ([handleResize]).

    What is modelled and how:
    - a JavaScript number is a [num]: an exact rational, or one of
      [Infinity], [-Infinity], [NaN].  Rounding of doubles and the sign of
      zero are not modelled; every operation is otherwise the IEEE one
      (division by zero, [Infinity - Infinity], ...);
    - the [responsive] object is a finite map from integer breakpoints to
      overrides: each key is the decimal string of an integer, so that
      [Number] of a key, used as a property name, finds the entry of that
      key; a property of an override is a number or is absent;
    - the container is a record of the properties the class reads and
      writes; [offsetWidth] is an integer, as the DOM has it; an assignment
      to [scrollLeft] stores the number as given, the clamping to the
      scrollable range being the host's; [scrollTo] and [scrollBy] calls
      are appended to a log and leave [scrollLeft] as it is;
    - a method is a state transformer that returns or throws, and the
      state survives a throw, as the fields of [this] do;
    - [init] (style injection, class names, event wiring, navigation
      buttons) and [console.log] are left out.  The widgets modelled have
      no dots container, so that [update] does not call [updateDots]; the
      pagination dots ([addDots], [updateDots], [updateActiveDot]) are
      modelled on their own, as the list of dots they leave in the dots
      container. *)

From Stdlib Require Import QArith Qcanon Qround.
From stdpp Require Import gmap list strings sorting.

Local Open Scope Z_scope.

(** ** Numbers *)

Inductive num : Type :=
| Fin (q : Qc)
| PInf
| NInf
| NaN.

Definition of_Z (z : Z) : num := Fin (Qc_of_Z z).

Module Num.

Definition neg (a : num) : num :=
  match a with
  | Fin q => Fin (- q)%Qc
  | PInf => NInf
  | NInf => PInf
  | NaN => NaN
  end.

Definition add (a b : num) : num :=
  match a, b with
  | NaN, _ | _, NaN => NaN
  | Fin x, Fin y => Fin (x + y)%Qc
  | PInf, NInf | NInf, PInf => NaN
  | PInf, _ | _, PInf => PInf
  | NInf, _ | _, NInf => NInf
  end.

Definition sub (a b : num) : num := add a (neg b).

(** The sign of a number: [Lt] negative, [Eq] zero, [Gt] positive. *)
Definition sign (a : num) : option comparison :=
  match a with
  | Fin q => Some (q ?= 0)%Qc
  | PInf => Some Gt
  | NInf => Some Lt
  | NaN => None
  end.

Definition inf_of (s : comparison) : num :=
  match s with
  | Gt => PInf
  | Lt => NInf
  | Eq => NaN
  end.

Definition sign_mul (s t : comparison) : comparison :=
  match s, t with
  | Eq, _ | _, Eq => Eq
  | Gt, Gt | Lt, Lt => Gt
  | Gt, Lt | Lt, Gt => Lt
  end.

Definition mul (a b : num) : num :=
  match a, b with
  | Fin x, Fin y => Fin (x * y)%Qc
  | _, _ =>
      match sign a, sign b with
      | Some s, Some t => inf_of (sign_mul s t)
      | _, _ => NaN
      end
  end.

(** [x / 0] is an infinity of the sign of [x], and [0 / 0] is [NaN]; a
    finite number over an infinity is zero; a zero divisor counts as
    positive zero. *)
Definition div (a b : num) : num :=
  match a, b with
  | NaN, _ | _, NaN => NaN
  | Fin x, Fin y =>
      if decide (y = 0%Qc) then inf_of (x ?= 0)%Qc else Fin (x / y)%Qc
  | Fin _, _ => Fin 0%Qc
  | _, Fin y =>
      match sign a with
      | Some s => inf_of (sign_mul s (if decide (y < 0)%Qc then Lt else Gt))
      | None => NaN
      end
  | _, _ => NaN
  end.

(** [Math.round]: the nearest integer, a tie going up. *)
Definition round (a : num) : num :=
  match a with
  | Fin q => of_Z (Qfloor (q + Q2Qc (1 # 2))%Qc)
  | _ => a
  end.

(** Truthiness of a number: [0] and [NaN] are falsy. *)
Definition truthy (a : num) : bool :=
  match a with
  | Fin q => bool_decide (q <> 0%Qc)
  | NaN => false
  | _ => true
  end.

(** [a !== b] on numbers: [NaN] differs from itself. *)
Definition strict_ne (a b : num) : bool :=
  match a, b with
  | NaN, _ | _, NaN => true
  | Fin x, Fin y => bool_decide (x <> y)
  | PInf, PInf | NInf, NInf => false
  | _, _ => true
  end.

End Num.

Declare Scope num_scope.
Delimit Scope num_scope with num.
Bind Scope num_scope with num.
Infix "+" := Num.add : num_scope.
Infix "-" := Num.sub : num_scope.
Infix "*" := Num.mul : num_scope.
Infix "/" := Num.div : num_scope.
Notation "- x" := (Num.neg x) : num_scope.

Global Instance num_eq_dec : EqDecision num.
Proof. solve_decision. Defined.

(** ** Completion of a call *)

Inductive exn : Type := TypeError.

Inductive outcome (A : Type) : Type :=
| Returned (a : A)
| Thrown (e : exn).
Arguments Returned {A} a.
Arguments Thrown {A} e.

Global Instance exn_eq_dec : EqDecision exn.
Proof. solve_decision. Defined.
Global Instance outcome_eq_dec {A} `{EqDecision A} : EqDecision (outcome A).
Proof. solve_decision. Defined.

Definition bind_outcome {A B} (o : outcome A) (k : A -> outcome B) : outcome B :=
  match o with
  | Returned a => k a
  | Thrown e => Thrown e
  end.

Notation "'let?' x ':=' o 'in' k" := (bind_outcome o (fun x => k))
  (at level 10, x pattern, o at level 100, k at level 200).

(** ** Data *)

(** A value of the [responsive] object: a partial override. *)
Module Override.
Record t : Type := Make {
  itemsToShow : option num;
  itemsToScroll : option num
}.
End Override.

(** [this.options], after the merge with the defaults. *)
Module Options.
Record t : Type := Make {
  itemsToShow : num;
  itemsToScroll : num;
  snapDuration : num;
  gap : num;
  navigation : bool;
  dots : bool;
  responsive : option (gmap Z Override.t)
}.

Definition defaults : t :=
  {| itemsToShow := of_Z 1;
     itemsToScroll := of_Z 1;
     snapDuration := of_Z 300;
     gap := of_Z 20;
     navigation := true;
     dots := false;
     responsive := None |}.
End Options.

(** An options object as the caller passes it: each property is present or
    absent; [responsive] may be present and null. *)
Module Config.
Record t : Type := Make {
  itemsToShow : option num;
  itemsToScroll : option num;
  snapDuration : option num;
  gap : option num;
  navigation : option bool;
  dots : option bool;
  responsive : option (option (gmap Z Override.t))
}.

Definition empty : t := Make None None None None None None None.
End Config.

(** [{ ...o, ...c }] *)
Definition spread (o : Options.t) (c : Config.t) : Options.t :=
  {| Options.itemsToShow := default (Options.itemsToShow o) (Config.itemsToShow c);
     Options.itemsToScroll := default (Options.itemsToScroll o) (Config.itemsToScroll c);
     Options.snapDuration := default (Options.snapDuration o) (Config.snapDuration c);
     Options.gap := default (Options.gap o) (Config.gap c);
     Options.navigation := default (Options.navigation o) (Config.navigation c);
     Options.dots := default (Options.dots o) (Config.dots c);
     Options.responsive := default (Options.responsive o) (Config.responsive c) |}.

(** [this.currentBreakpoint], when it is not null. *)
Module Breakpoint.
Record t : Type := Make {
  itemsToShow : num;
  itemsToScroll : num
}.
End Breakpoint.

(** A call of [container.scrollTo] or [container.scrollBy]; both are made
    with [behavior: 'smooth']. *)
Inductive scroll_call : Type :=
| ScrollTo (left : num)
| ScrollBy (left : num).

Module Container.
Record t : Type := Make {
  offsetWidth : Z;
  scrollLeft : num;
  scrollBehavior : string;
  cursor : string;
  calls : list scroll_call
}.

Definition set_scrollLeft (v : num) (c : t) : t :=
  Make (offsetWidth c) v (scrollBehavior c) (cursor c) (calls c).
Definition set_scrollBehavior (v : string) (c : t) : t :=
  Make (offsetWidth c) (scrollLeft c) v (cursor c) (calls c).
Definition set_cursor (v : string) (c : t) : t :=
  Make (offsetWidth c) (scrollLeft c) (scrollBehavior c) v (calls c).
Definition call (r : scroll_call) (c : t) : t :=
  Make (offsetWidth c) (scrollLeft c) (scrollBehavior c) (cursor c) (calls c ++ [r]).
End Container.

(** The fields of a [SnapScroll] instance.  An element of [items] is the
    [style.width] of that child, in pixels, once [update] has set it. *)
Record SnapScroll : Type := MakeSnapScroll {
  container : Container.t;
  options : Options.t;
  currentBreakpoint : option Breakpoint.t;
  items : list (option num);
  isDragging : bool;
  startX : num;
  scrollLeft : num
}.

Definition set_container (f : Container.t -> Container.t) (this : SnapScroll) : SnapScroll :=
  MakeSnapScroll (f (container this)) (options this) (currentBreakpoint this)
    (items this) (isDragging this) (startX this) (scrollLeft this).
Definition set_options (v : Options.t) (this : SnapScroll) : SnapScroll :=
  MakeSnapScroll (container this) v (currentBreakpoint this)
    (items this) (isDragging this) (startX this) (scrollLeft this).
Definition set_currentBreakpoint (v : option Breakpoint.t) (this : SnapScroll) : SnapScroll :=
  MakeSnapScroll (container this) (options this) v
    (items this) (isDragging this) (startX this) (scrollLeft this).
Definition set_items (v : list (option num)) (this : SnapScroll) : SnapScroll :=
  MakeSnapScroll (container this) (options this) (currentBreakpoint this)
    v (isDragging this) (startX this) (scrollLeft this).
Definition set_isDragging (v : bool) (this : SnapScroll) : SnapScroll :=
  MakeSnapScroll (container this) (options this) (currentBreakpoint this)
    (items this) v (startX this) (scrollLeft this).
Definition set_startX (v : num) (this : SnapScroll) : SnapScroll :=
  MakeSnapScroll (container this) (options this) (currentBreakpoint this)
    (items this) (isDragging this) v (scrollLeft this).
Definition set_scrollLeft (v : num) (this : SnapScroll) : SnapScroll :=
  MakeSnapScroll (container this) (options this) (currentBreakpoint this)
    (items this) (isDragging this) (startX this) v.

Global Instance Override_eq_dec : EqDecision Override.t.
Proof. solve_decision. Defined.
Global Instance Options_eq_dec : EqDecision Options.t.
Proof. solve_decision. Defined.
Global Instance Breakpoint_eq_dec : EqDecision Breakpoint.t.
Proof. solve_decision. Defined.
Global Instance scroll_call_eq_dec : EqDecision scroll_call.
Proof. solve_decision. Defined.
Global Instance Container_eq_dec : EqDecision Container.t.
Proof. solve_decision. Defined.
Global Instance SnapScroll_eq_dec : EqDecision SnapScroll.
Proof. solve_decision. Defined.

(** The field assignments of the constructor, before [init] runs: the
    options are the defaults overridden by the caller's, unchecked. *)
Definition constructor (c : Container.t) (children : nat) (opts : Config.t) : SnapScroll :=
  {| container := c;
     options := spread Options.defaults opts;
     currentBreakpoint := None;
     items := replicate children None;
     isDragging := false;
     startX := of_Z 0;
     scrollLeft := of_Z 0 |}.

(** ** Breakpoint resolution *)

(** [Object.keys(o).map(Number)], in the order the map enumerates its
    keys; the source sorts the result before it uses it. *)
Definition Object_keys (o : gmap Z Override.t) : list Z := (map_to_list o).*1.

(** [a.sort(compareFn)]: [x] goes before [y] when [compareFn x y] is not
    positive. *)
Definition goes_before (compareFn : Z -> Z -> Z) : relation Z :=
  fun x y => compareFn x y <= 0.

Global Instance goes_before_dec compareFn : RelDecision (goes_before compareFn).
Proof. intros x y. unfold goes_before. apply _. Defined.

Definition Array_sort (compareFn : Z -> Z -> Z) (a : list Z) : list Z :=
  merge_sort (goes_before compareFn) a.

(** [v || d], where [v] is a property that may be absent. *)
Definition or_else (v : option num) (d : num) : num :=
  match v with
  | Some x => if Num.truthy x then x else d
  | None => d
  end.

(** [v !== undefined ? v : d] *)
Definition if_defined (v : option num) (d : num) : num :=
  match v with
  | Some x => x
  | None => d
  end.

(** The loop of [getItemsToShow] over the breakpoints in descending order:
    it stops at the first one the container is at least as wide as.  The
    result is the pair of [activeBreakpoint] and [itemsToShow] after the
    loop.  Reading a property of a missing entry throws. *)
Fixpoint first_match (responsive : gmap Z Override.t) (containerWidth : Z)
    (sortedBreakpoints : list Z) (activeBreakpoint : option Z) (itemsToShow : num)
    : outcome (option Z * num) :=
  match sortedBreakpoints with
  | [] => Returned (activeBreakpoint, itemsToShow)
  | breakpoint :: rest =>
      if bool_decide (containerWidth >= breakpoint) then
        match responsive !! breakpoint with
        | Some config =>
            Returned (Some breakpoint, or_else (Override.itemsToShow config) itemsToShow)
        | None => Thrown TypeError
        end
      else first_match responsive containerWidth rest activeBreakpoint itemsToShow
  end.

Definition getItemsToShow (this : SnapScroll) : outcome num :=
  match Options.responsive (options this) with
  | None => Returned (Options.itemsToShow (options this))
  | Some responsive =>
      let containerWidth := Container.offsetWidth (container this) in
      let sortedBreakpoints := Array_sort (fun a b => b - a) (Object_keys responsive) in
      let? (_, itemsToShow) :=
        first_match responsive containerWidth sortedBreakpoints None
          (Options.itemsToShow (options this)) in
      Returned itemsToShow
  end.

(** The loop of [getItemsToScroll] over the breakpoints in ascending
    order: it keeps the last one the container is at least as wide as and
    stops at the first wider one. *)
Fixpoint last_match (containerWidth : Z) (sortedBreakpoints : list Z)
    (activeBreakpoint : option Z) : option Z :=
  match sortedBreakpoints with
  | [] => activeBreakpoint
  | breakpoint :: rest =>
      if bool_decide (containerWidth >= breakpoint)
      then last_match containerWidth rest (Some breakpoint)
      else activeBreakpoint
  end.

Definition getItemsToScroll (this : SnapScroll) : outcome num :=
  match Options.responsive (options this) with
  | None => Returned (Options.itemsToScroll (options this))
  | Some responsive =>
      let containerWidth := Container.offsetWidth (container this) in
      let itemsToScroll := Options.itemsToScroll (options this) in
      let sortedBreakpoints := Array_sort (fun a b => a - b) (Object_keys responsive) in
      match last_match containerWidth sortedBreakpoints None with
      | Some activeBreakpoint =>
          match responsive !! activeBreakpoint with
          | Some config =>
              Returned (if_defined (Override.itemsToScroll config) itemsToScroll)
          | None => Thrown TypeError
          end
      | None => Returned itemsToScroll
      end
  end.

Definition getItemWidth (this : SnapScroll) : outcome num :=
  let? n := getItemsToShow this in
  Returned (of_Z (Container.offsetWidth (container this)) / n - Options.gap (options this))%num.

(** ** Methods *)

(** A method runs on the fields of [this], returns or throws, and leaves
    the fields as they are at that point. *)
Definition method (A : Type) : Type := SnapScroll -> outcome A * SnapScroll.

Definition ret {A} (a : A) : method A := fun this => (Returned a, this).

Definition bind {A B} (m : method A) (k : A -> method B) : method B :=
  fun this =>
    match m this with
    | (Returned a, this') => k a this'
    | (Thrown e, this') => (Thrown e, this')
    end.

(** Evaluate an expression over the fields. *)
Definition get {A} (f : SnapScroll -> outcome A) : method A :=
  fun this => (f this, this).

(** Assign to the fields. *)
Definition modify (f : SnapScroll -> SnapScroll) : method unit :=
  fun this => (Returned tt, f this).

Notation "'let!' x ':=' m 'in' k" := (bind m (fun x => k))
  (at level 10, x pattern, m at level 100, k at level 200).
Notation "m ';;' k" := (bind m (fun _ => k))
  (at level 100, k at level 200, right associativity).

(** A mouse event has [pageX] and no [touches]; a touch event has no
    [pageX], and [touches] holds the [pageX] of each touch point. *)
Inductive event : Type :=
| MouseEvent (pageX : num)
| TouchEvent (touches : list num).

(** [e.pageX || e.touches[0].pageX] *)
Definition event_pageX (e : event) : outcome num :=
  match e with
  | MouseEvent pageX =>
      if Num.truthy pageX then Returned pageX else Thrown TypeError
  | TouchEvent touches =>
      match touches with
      | pageX :: _ => Returned pageX
      | [] => Thrown TypeError
      end
  end.

Definition startDrag (e : event) : method unit :=
  modify (set_isDragging true) ;;
  let! x := get (fun _ => event_pageX e) in
  modify (set_startX x) ;;
  modify (fun this => set_scrollLeft (Container.scrollLeft (container this)) this) ;;
  modify (set_container (Container.set_scrollBehavior "auto")) ;;
  modify (set_container (Container.set_cursor "grabbing")).

Definition drag (e : event) : method unit :=
  fun this =>
    if negb (isDragging this) then (Returned tt, this)
    else
      (let! x := get (fun _ => event_pageX e) in
       let! walk := get (fun this => Returned ((x - startX this) * of_Z 2)%num) in
       modify (fun this =>
         set_container (Container.set_scrollLeft (scrollLeft this - walk)%num) this)) this.

Definition scrollTo (index : num) : method unit :=
  let! w := get getItemWidth in
  let! itemWidth := get (fun this => Returned (w + Options.gap (options this))%num) in
  let! n := get getItemsToShow in
  let scrollAmount := (itemWidth * n * index)%num in
  modify (set_container (Container.call (ScrollTo scrollAmount))).

(** The index that [snapToNearest] passes to [scrollTo]. *)
Definition snapToNearest_activeIndex (this : SnapScroll) : outcome num :=
  let? itemWidth := getItemWidth this in
  let scrollPos := Container.scrollLeft (container this) in
  Returned (Num.round (scrollPos / (itemWidth + Options.gap (options this))))%num.

Definition snapToNearest : method unit :=
  let! activeIndex := get snapToNearest_activeIndex in
  scrollTo activeIndex.

Definition endDrag : method unit :=
  modify (set_isDragging false) ;;
  modify (set_container (Container.set_scrollBehavior "smooth")) ;;
  modify (set_container (Container.set_cursor "grab")) ;;
  snapToNearest.

(** The index of the active dot that [updateActiveDot] computes. *)
Definition updateActiveDot_activeIndex (this : SnapScroll) : outcome num :=
  let? w := getItemWidth this in
  let itemWidth := (w + Options.gap (options this))%num in
  let? n := getItemsToShow this in
  Returned (Num.round (Container.scrollLeft (container this) / (itemWidth * n)))%num.

(** [update], on a widget without a dots container. *)
Definition update (config : option Config.t) : method unit :=
  match config with
  | Some c => modify (fun this => set_options (spread (options this) c) this)
  | None => ret tt
  end ;;
  let! itemsToShow := get getItemsToShow in
  let! itemWidth := get getItemWidth in
  modify (fun this => set_items (map (fun _ => Some itemWidth) (items this)) this).

Definition prev : method unit :=
  let! w := get getItemWidth in
  let! itemWidth := get (fun this => Returned (w + Options.gap (options this))%num) in
  let! n := get getItemsToScroll in
  let scrollAmount := (itemWidth * n)%num in
  modify (set_container (Container.call (ScrollBy (- scrollAmount)%num))).

Definition next : method unit :=
  let! w := get getItemWidth in
  let! itemWidth := get (fun this => Returned (w + Options.gap (options this))%num) in
  let! n := get getItemsToScroll in
  let scrollAmount := (itemWidth * n)%num in
  modify (set_container (Container.call (ScrollBy scrollAmount))).

Definition handleResize : method unit :=
  let! prevItemsToShow := get (fun this => Returned
    (or_else (Breakpoint.itemsToShow <$> currentBreakpoint this)
       (Options.itemsToShow (options this)))) in
  let! prevItemsToScroll := get (fun this => Returned
    (or_else (Breakpoint.itemsToScroll <$> currentBreakpoint this)
       (Options.itemsToScroll (options this)))) in
  let! currentItemsToShow := get getItemsToShow in
  let! currentItemsToScroll := get getItemsToScroll in
  if Num.strict_ne currentItemsToShow prevItemsToShow
     || Num.strict_ne currentItemsToScroll prevItemsToScroll
  then
    modify (set_currentBreakpoint
      (Some (Breakpoint.Make currentItemsToShow currentItemsToScroll))) ;;
    let! _ := get getItemsToScroll in
    update None ;;
    let! w := get getItemWidth in
    let! itemWidth := get (fun this => Returned (w + Options.gap (options this))%num) in
    let! currentIndex := get (fun this => Returned
      (Num.round (Container.scrollLeft (container this) / (itemWidth * prevItemsToShow)))%num) in
    let newScrollPos := (currentIndex * (itemWidth * currentItemsToShow))%num in
    let! originalBehavior := get (fun this => Returned (Container.scrollBehavior (container this))) in
    modify (set_container (Container.set_scrollBehavior "auto")) ;;
    modify (set_container (Container.set_scrollLeft newScrollPos)) ;;
    modify (set_container (Container.set_scrollBehavior originalBehavior))
  else ret tt.


(** ** Notions the properties are stated with *)

(** The two comparators the source sorts with. *)
Definition descending : Z -> Z -> Z := fun a b => b - a.
Definition ascending : Z -> Z -> Z := fun a b => a - b.

(** [k] is the largest breakpoint of the list [l] that is at most [w]. *)
Definition largest_in (w : Z) (l : list Z) (k : Z) : Prop :=
  k ∈ l /\ k <= w /\ forall k', k' ∈ l -> k' <= w -> k' <= k.

(** [k], with override [config], is the active breakpoint of [B] at width
    [w]: the largest key of [B] that is at most [w]. *)
Definition active_breakpoint (B : gmap Z Override.t) (w k : Z) (config : Override.t) : Prop :=
  B !! k = Some config /\ k <= w /\
  forall k' config', B !! k' = Some config' -> k' <= w -> k' <= k.

(** No key of [B] is at most [w]. *)
Definition no_breakpoint (B : gmap Z Override.t) (w : Z) : Prop :=
  forall k config, B !! k = Some config -> w < k.

(** Two option records that agree on everything but [itemsToScroll], in
    the base values and in every override. *)
Definition differ_only_in_itemsToScroll (o o' : Options.t) : Prop :=
  Options.itemsToShow o = Options.itemsToShow o' /\
  Options.snapDuration o = Options.snapDuration o' /\
  Options.gap o = Options.gap o' /\
  Options.navigation o = Options.navigation o' /\
  Options.dots o = Options.dots o' /\
  match Options.responsive o, Options.responsive o' with
  | None, None => True
  | Some B, Some B' =>
      forall k, Override.itemsToShow <$> B !! k = Override.itemsToShow <$> B' !! k
  | _, _ => False
  end.

(** The breakpoint the descending loop leaves in [activeBreakpoint], whatever
    value [itemsToShow] starts with, and the one the ascending loop leaves
    there. *)
Definition first_match_active (B : gmap Z Override.t) (w : Z) : outcome (option Z) :=
  let? (activeBreakpoint, _) :=
    first_match B w (Array_sort (fun a b => b - a) (Object_keys B)) None (of_Z 0) in
  Returned activeBreakpoint.

Definition last_match_active (B : gmap Z Override.t) (w : Z) : option Z :=
  last_match w (Array_sort (fun a b => a - b) (Object_keys B)) None.

(** ** The contracts of the specification, in its words, to compare the
    code with *)

Module Spec.

(** [offsetForPage(pageIndex, itemWidth, gap, itemsToShow)] *)
Definition offsetForPage (pageIndex itemWidth gap itemsToShow : num) : num :=
  (pageIndex * itemsToShow * (itemWidth + gap))%num.

(** [pageForOffset(scrollOffset, itemWidth, gap, itemsToScroll)] *)
Definition pageForOffset (scrollOffset itemWidth gap itemsToScroll : num) : num :=
  Num.round (scrollOffset / ((itemWidth + gap) * itemsToScroll))%num.

(** [reconcile(oldOffset, oldItemWidth, oldGap, oldItemsToShow,
    newItemWidth, newGap, newItemsToShow)] *)
Definition reconcile (oldOffset oldItemWidth oldGap oldItemsToShow
    newItemWidth newGap newItemsToShow : num) : num :=
  let currentPageIndex :=
    Num.round (oldOffset / ((oldItemWidth + oldGap) * oldItemsToShow))%num in
  (currentPageIndex * ((newItemWidth + newGap) * newItemsToShow))%num.

End Spec.

(** ** Example widgets *)

(** A widget of 24 items as the constructor leaves it, on a container of
    the given width and scroll offset. *)
Definition widget (offsetWidth : Z) (scrollLeft : num) (opts : Config.t) : SnapScroll :=
  constructor (Container.Make offsetWidth scrollLeft "" "" []) 24 opts.

(** Options that set [itemsToShow], [itemsToScroll] and [responsive]. *)
Definition config_of (itemsToShow itemsToScroll : Z)
    (responsive : option (gmap Z Override.t)) : Config.t :=
  Config.Make (Some (of_Z itemsToShow)) (Some (of_Z itemsToScroll))
    None None None None (Some responsive).

(** [{0: {itemsToShow: 1, itemsToScroll: 1}, 767: {itemsToShow: 2},
     1024: {itemsToShow: 3, itemsToScroll: 2}}] *)
Definition scenario_responsive : gmap Z Override.t :=
  <[0 := Override.Make (Some (of_Z 1)) (Some (of_Z 1))]>
  (<[767 := Override.Make (Some (of_Z 2)) None]>
  (<[1024 := Override.Make (Some (of_Z 3)) (Some (of_Z 2))]> ∅)).

Definition scenario (offsetWidth : Z) : SnapScroll :=
  widget offsetWidth (of_Z 0) (config_of 3 2 (Some scenario_responsive)).

(** [{0: {itemsToShow: 0, itemsToScroll: 0}}] *)
Definition zero_responsive : gmap Z Override.t :=
  {[ 0 := Override.Make (Some (of_Z 0)) (Some (of_Z 0)) ]}.

Definition zero_widget : SnapScroll :=
  widget 800 (of_Z 0) (config_of 3 2 (Some zero_responsive)).

(** A widget showing one item and scrolling two, dragged to offset 2000. *)
Definition snap_widget : SnapScroll := widget 1000 (of_Z 2000) (config_of 1 2 None).

(** A widget showing two items per page. *)
Definition paged_widget : SnapScroll := widget 1000 (of_Z 0) (config_of 2 1 None).

(** A widget once its container has scrolled to [left]. *)
Definition scrolled (left : num) (this : SnapScroll) : SnapScroll :=
  set_container (Container.set_scrollLeft left) this.

(** [{0: {itemsToShow: 2}, 1024: {itemsToShow: 4}}] on a widget that shows
    two items and scrolls one, at the start of page 2 of the 1023 pixel
    layout. *)
Definition resize_responsive : gmap Z Override.t :=
  <[0 := Override.Make (Some (of_Z 2)) None]>
  (<[1024 := Override.Make (Some (of_Z 4)) None]> ∅).

Definition resize_widget (offsetWidth : Z) : SnapScroll :=
  widget offsetWidth (of_Z 2046) (config_of 2 1 (Some resize_responsive)).

(** A drag in progress: the pointer went down at 100 with the container at
    offset 0 and has moved to 75. *)
Definition dragging_widget : SnapScroll :=
  (drag (MouseEvent (of_Z 75))
     (startDrag (MouseEvent (of_Z 100)) (widget 1000 (of_Z 0) Config.empty)).2).2.

(** ** Further notions and the pagination dots *)

(** The width of the container, as a rational. *)
Definition page_width (this : SnapScroll) : Qc :=
  Qc_of_Z (Container.offsetWidth (container this)).

(** The container resized to [offsetWidth], the fields of the widget left
    as they are. *)
Definition resized (offsetWidth : Z) (this : SnapScroll) : SnapScroll :=
  set_container
    (fun c => Container.Make offsetWidth (Container.scrollLeft c)
                (Container.scrollBehavior c) (Container.cursor c) (Container.calls c))
    this.

(** The two values [handleResize] compares the resolved ones with:
    [this.currentBreakpoint?.itemsToShow || this.options.itemsToShow] and
    its sibling. *)
Definition prevItemsToShow (this : SnapScroll) : num :=
  or_else (Breakpoint.itemsToShow <$> currentBreakpoint this)
    (Options.itemsToShow (options this)).

Definition prevItemsToScroll (this : SnapScroll) : num :=
  or_else (Breakpoint.itemsToScroll <$> currentBreakpoint this)
    (Options.itemsToScroll (options this)).

(** Every item has the width [getItemWidth] returns. *)
Definition laid_out (this : SnapScroll) : Prop :=
  exists w, getItemWidth this = Returned w /\ Forall (eq (Some w)) (items this).

(** [a < b] on numbers. *)
Definition num_lt (a b : num) : bool :=
  match a, b with
  | NaN, _ | _, NaN => false
  | Fin x, Fin y => bool_decide (x < y)%Qc
  | Fin _, PInf => true
  | Fin _, NInf => false
  | PInf, _ => false
  | NInf, NInf => false
  | NInf, _ => true
  end.

(** [Math.ceil] *)
Definition num_ceil (a : num) : num :=
  match a with
  | Fin q => of_Z (Qceiling q)
  | _ => a
  end.

(** A dot button: whether it carries the [active] class, and the index its
    click handler passes to [scrollTo]. *)
Record dot : Type := Dot {
  dot_active : bool;
  dot_index : Z
}.

Global Instance dot_eq_dec : EqDecision dot.
Proof. solve_decision. Defined.

(** [Math.ceil(this.items.length / this.getItemsToShow())] *)
Definition dots_itemCount (this : SnapScroll) : outcome num :=
  let? n := getItemsToShow this in
  Returned (num_ceil (of_Z (Z.of_nat (length (items this))) / n)%num).

(** The loop [for (let i = 0; i < itemCount; i++)] of [addDots] and of
    [updateDots], which appends one dot per round; [addDots] puts the
    [active] class on the dot of index 0.  The loop is run for at most
    [fuel] tests of its condition and gives [None] when they do not end
    it. *)
Fixpoint create_dots (fuel : nat) (itemCount : num) (i : Z) (markFirst : bool)
    (dots : list dot) : option (list dot) :=
  match fuel with
  | O => None
  | S fuel' =>
      if num_lt (of_Z i) itemCount
      then create_dots fuel' itemCount (i + 1) markFirst
             (dots ++ [Dot (markFirst && bool_decide (i = 0)) i])
      else Some dots
  end.

(** The dots [addDots] puts in the dots container. *)
Definition addDots (fuel : nat) (this : SnapScroll) : option (outcome (list dot)) :=
  match dots_itemCount this with
  | Returned itemCount =>
      dots ← create_dots fuel itemCount 0 true []; Some (Returned dots)
  | Thrown e => Some (Thrown e)
  end.

(** [updateActiveDot], on the dots of the dots container: the dot whose
    position is the active index gets the [active] class, every other dot
    loses it. *)
Definition updateActiveDot (this : SnapScroll) (dots : list dot) : outcome (list dot) :=
  let? activeIndex := updateActiveDot_activeIndex this in
  Returned
    (imap (fun index d =>
             Dot (negb (Num.strict_ne (of_Z (Z.of_nat index)) activeIndex)) (dot_index d))
       dots).

(** The dots [updateDots] leaves in the dots container. *)
Definition updateDots (fuel : nat) (this : SnapScroll) : option (outcome (list dot)) :=
  match dots_itemCount this with
  | Returned itemCount =>
      dots ← create_dots fuel itemCount 0 false []; Some (updateActiveDot this dots)
  | Thrown e => Some (Thrown e)
  end.


(** The dots of indices [0] to [count - 1], with the [active] class on
    those [active] holds of. *)
Definition dots_of (active : Z -> bool) (count : Z) : list dot :=
  (fun i => Dot (active i) i) <$> seqZ 0 count.

(** A widget after [handleResize] and then [update], the two calls that
    [init] ends with on a widget with breakpoints. *)
Definition ready (this : SnapScroll) : SnapScroll :=
  (update None (handleResize this).2).2.

(** * Properties *)

(** ** Numbers *)

Lemma truthy_spec (a : num) : Num.truthy a = true <-> a <> of_Z 0 /\ a <> NaN.
Proof.
  destruct a as [q| | |]; simpl; try (split; [intros _; split; discriminate | done]).
  - rewrite bool_decide_eq_true. split.
    + intros Hq. split; [|discriminate]. intros [= ->]. apply Hq.
      apply Qc_is_canon. reflexivity.
    + intros [Hq _] ->. apply Hq. unfold of_Z. f_equal.
      apply Qc_is_canon. reflexivity.
  - split; [discriminate | intros [_ H]; done].
Qed.

Lemma round_of_Z (m : Z) : Num.round (of_Z m) = of_Z m.
Proof.
  unfold Num.round, of_Z. do 2 f_equal.
  unfold Qcplus, Q2Qc. simpl this.
  rewrite !Qred_correct.
  unfold Qfloor, Qplus, inject_Z. simpl.
  rewrite Z.mul_1_r.
  symmetry. apply (Z.div_unique _ _ _ 1); lia.
Qed.

Lemma div_mul_cancel (s x : Qc) : s <> 0%Qc -> (Fin (s * x) / Fin s)%num = Fin x.
Proof.
  intros Hs. unfold Num.div. case_decide; [done|]. f_equal. field. done.
Qed.

Lemma or_else_absent (d : num) : or_else None d = d.
Proof. reflexivity. Qed.

Lemma or_else_truthy (v d : num) : Num.truthy v = true -> or_else (Some v) d = v.
Proof. intros H. unfold or_else. by rewrite H. Qed.

Lemma or_else_falsy (v d : num) : Num.truthy v = false -> or_else (Some v) d = d.
Proof. intros H. unfold or_else. by rewrite H. Qed.

(** ** Sorting the breakpoints *)

Section sorting.

Lemma goes_before_descending x y : goes_before descending x y <-> y <= x.
Proof. unfold goes_before, descending. lia. Qed.

Lemma goes_before_ascending x y : goes_before ascending x y <-> x <= y.
Proof. unfold goes_before, ascending. lia. Qed.

Global Instance descending_total : Total (goes_before descending).
Proof. intros x y. rewrite !goes_before_descending. lia. Qed.
Global Instance descending_trans : Transitive (goes_before descending).
Proof. intros x y z. rewrite !goes_before_descending. lia. Qed.
Global Instance ascending_total : Total (goes_before ascending).
Proof. intros x y. rewrite !goes_before_ascending. lia. Qed.
Global Instance ascending_trans : Transitive (goes_before ascending).
Proof. intros x y z. rewrite !goes_before_ascending. lia. Qed.

Lemma elem_of_Array_sort compareFn (a : list Z) (x : Z) :
  x ∈ Array_sort compareFn a <-> x ∈ a.
Proof. unfold Array_sort. by rewrite merge_sort_Permutation. Qed.

Lemma StronglySorted_weaken (R S : relation Z) (l : list Z) :
  (forall x y, R x y -> S x y) -> StronglySorted R l -> StronglySorted S l.
Proof.
  intros HRS. induction 1 as [|x l Hl IH Hx]; constructor; [done|].
  eapply Forall_impl; [exact Hx | auto].
Qed.

Lemma Array_sort_descending (a : list Z) :
  StronglySorted (fun x y => y <= x) (Array_sort descending a).
Proof.
  eapply StronglySorted_weaken;
    [|apply (StronglySorted_merge_sort (goes_before descending))].
  intros x y. apply goes_before_descending.
Qed.

Lemma Array_sort_ascending (a : list Z) :
  StronglySorted (fun x y => x <= y) (Array_sort ascending a).
Proof.
  eapply StronglySorted_weaken;
    [|apply (StronglySorted_merge_sort (goes_before ascending))].
  intros x y. apply goes_before_ascending.
Qed.

Lemma elem_of_Object_keys (o : gmap Z Override.t) (k : Z) :
  k ∈ Object_keys o <-> is_Some (o !! k).
Proof.
  unfold Object_keys. rewrite list_elem_of_fmap. split.
  - intros [[k' ov] [-> H]]. apply elem_of_map_to_list in H. by exists ov.
  - intros [ov H]. exists (k, ov). split; [done|]. by apply elem_of_map_to_list.
Qed.

End sorting.

(** ** The two loops *)

Section loops.

Variable responsive : gmap Z Override.t.
Variable containerWidth : Z.

Lemma largest_in_or_none (l : list Z) :
  (exists k, largest_in containerWidth l k) \/ (forall k, k ∈ l -> containerWidth < k).
Proof.
  induction l as [|x l [[k (Hk & Hle & Hmax)]|Hnone]].
  - right. intros k Hk. by apply elem_of_nil in Hk.
  - destruct (decide (x <= containerWidth /\ k < x)) as [[Hx Hkx]|Hx].
    + left. exists x. split; [left|]. split; [done|].
      intros k' [->|Hk']%elem_of_cons Hk'le; [lia|].
      specialize (Hmax k' Hk' Hk'le). lia.
    + left. exists k. split; [by right|]. split; [done|].
      intros k' [->|Hk']%elem_of_cons Hk'le; [lia|]. by apply Hmax.
  - destruct (decide (x <= containerWidth)) as [Hx|Hx].
    + left. exists x. split; [left|]. split; [done|].
      intros k' [->|Hk']%elem_of_cons Hk'le; [lia|].
      specialize (Hnone k' Hk'). lia.
    + right. intros k [->|Hk]%elem_of_cons; [lia|]. by apply Hnone.
Qed.

Lemma first_match_largest (l : list Z) (k : Z) (config : Override.t)
    (activeBreakpoint : option Z) (itemsToShow : num) :
  StronglySorted (fun x y => y <= x) l ->
  largest_in containerWidth l k ->
  responsive !! k = Some config ->
  first_match responsive containerWidth l activeBreakpoint itemsToShow
  = Returned (Some k, or_else (Override.itemsToShow config) itemsToShow).
Proof.
  intros Hsorted (Hk & Hle & Hmax) Hconfig.
  induction Hsorted as [|x l Hsorted IH Hx]; [by apply elem_of_nil in Hk|].
  simpl. case_bool_decide as Hwide.
  - assert (x = k) as ->.
    { apply elem_of_cons in Hk as [->|Hk]; [done|].
      rewrite Forall_forall in Hx. specialize (Hx k Hk).
      assert (x <= k) by (apply Hmax; [left | lia]). lia. }
    by rewrite Hconfig.
  - apply IH.
    + apply elem_of_cons in Hk as [->|Hk]; [lia | done].
    + intros k' Hk'. apply Hmax. by right.
Qed.

Lemma first_match_none (l : list Z) (activeBreakpoint : option Z) (itemsToShow : num) :
  (forall k, k ∈ l -> containerWidth < k) ->
  first_match responsive containerWidth l activeBreakpoint itemsToShow
  = Returned (activeBreakpoint, itemsToShow).
Proof.
  induction l as [|x l IH]; intros Hnone; [done|].
  simpl. case_bool_decide as Hwide.
  - assert (containerWidth < x) by (apply Hnone; left). lia.
  - apply IH. intros k Hk. apply Hnone. by right.
Qed.

Lemma last_match_stays (l : list Z) (x : Z) :
  (forall k', k' ∈ l -> k' <= containerWidth -> k' = x) ->
  last_match containerWidth l (Some x) = Some x.
Proof.
  induction l as [|y l IH]; intros Hl; [done|].
  simpl. case_bool_decide as Hwide; [|done].
  rewrite (Hl y); [|left|lia]. apply IH.
  intros k' Hk'. apply Hl. by right.
Qed.

Lemma last_match_largest (l : list Z) (k : Z) (activeBreakpoint : option Z) :
  StronglySorted (fun x y => x <= y) l ->
  largest_in containerWidth l k ->
  last_match containerWidth l activeBreakpoint = Some k.
Proof.
  intros Hsorted (Hk & Hle & Hmax). revert activeBreakpoint.
  induction Hsorted as [|x l Hsorted IH Hx]; intros activeBreakpoint;
    [by apply elem_of_nil in Hk|].
  rewrite Forall_forall in Hx.
  simpl. case_bool_decide as Hwide.
  - destruct (decide (k ∈ l)) as [Hkl|Hkl].
    + apply IH; [done|]. intros k' Hk'. apply Hmax. by right.
    + apply elem_of_cons in Hk as [->|Hk]; [|done].
      apply last_match_stays. intros k' Hk' Hk'le.
      specialize (Hx k' Hk').
      assert (k' <= x) by (apply Hmax; [by right | done]). lia.
  - apply elem_of_cons in Hk as [->|Hk]; [lia|].
    specialize (Hx k Hk). lia.
Qed.

Lemma last_match_none (l : list Z) (activeBreakpoint : option Z) :
  (forall k, k ∈ l -> containerWidth < k) ->
  last_match containerWidth l activeBreakpoint = activeBreakpoint.
Proof.
  destruct l as [|x l]; intros Hnone; [done|].
  simpl. case_bool_decide as Hwide; [|done].
  assert (containerWidth < x) by (apply Hnone; left). lia.
Qed.

End loops.

(** ** Breakpoint resolution *)

Lemma active_breakpoint_largest_in B w k config compareFn :
  active_breakpoint B w k config ->
  largest_in w (Array_sort compareFn (Object_keys B)) k.
Proof.
  intros (Hk & Hle & Hmax). split; [|split; [done|]].
  - apply elem_of_Array_sort, elem_of_Object_keys. by exists config.
  - intros k' [config' Hk']%elem_of_Array_sort%elem_of_Object_keys. by eapply Hmax.
Qed.

Lemma largest_in_active_breakpoint B w k compareFn :
  largest_in w (Array_sort compareFn (Object_keys B)) k ->
  exists config, active_breakpoint B w k config.
Proof.
  intros ([config Hk]%elem_of_Array_sort%elem_of_Object_keys & Hle & Hmax).
  exists config. split; [done|]. split; [done|].
  intros k' config' Hk'. apply Hmax.
  apply elem_of_Array_sort, elem_of_Object_keys. by exists config'.
Qed.

Lemma no_breakpoint_keys B w compareFn :
  no_breakpoint B w ->
  forall k, k ∈ Array_sort compareFn (Object_keys B) -> w < k.
Proof.
  intros Hnone k [config Hk]%elem_of_Array_sort%elem_of_Object_keys. by eapply Hnone.
Qed.

Lemma active_breakpoint_or_none B w :
  (exists k config, active_breakpoint B w k config) \/ no_breakpoint B w.
Proof.
  destruct (largest_in_or_none w (Array_sort descending (Object_keys B)))
    as [[k Hk]|Hnone].
  - left. exists k. by eapply largest_in_active_breakpoint.
  - right. intros k config Hk. apply Hnone.
    apply elem_of_Array_sort, elem_of_Object_keys. by exists config.
Qed.

Section resolution.

Variable this : SnapScroll.
Variable B : gmap Z Override.t.
Hypothesis Hresponsive : Options.responsive (options this) = Some B.

Let w := Container.offsetWidth (container this).

Lemma getItemsToShow_active k config :
  active_breakpoint B w k config ->
  getItemsToShow this
  = Returned (or_else (Override.itemsToShow config) (Options.itemsToShow (options this))).
Proof.
  intros Hactive. unfold getItemsToShow. rewrite Hresponsive.
  erewrite first_match_largest; [done | apply Array_sort_descending | | apply Hactive].
  by eapply active_breakpoint_largest_in.
Qed.

Lemma getItemsToShow_none :
  no_breakpoint B w ->
  getItemsToShow this = Returned (Options.itemsToShow (options this)).
Proof.
  intros Hnone. unfold getItemsToShow. rewrite Hresponsive.
  rewrite first_match_none; [done|]. by apply no_breakpoint_keys.
Qed.

Lemma getItemsToScroll_active k config :
  active_breakpoint B w k config ->
  getItemsToScroll this
  = Returned (if_defined (Override.itemsToScroll config) (Options.itemsToScroll (options this))).
Proof.
  intros Hactive. unfold getItemsToScroll. rewrite Hresponsive.
  erewrite last_match_largest; [| apply Array_sort_ascending
                                | by eapply active_breakpoint_largest_in].
  destruct Hactive as [-> _]. done.
Qed.

Lemma getItemsToScroll_none :
  no_breakpoint B w ->
  getItemsToScroll this = Returned (Options.itemsToScroll (options this)).
Proof.
  intros Hnone. unfold getItemsToScroll. rewrite Hresponsive.
  rewrite last_match_none; [done|]. by apply no_breakpoint_keys.
Qed.

End resolution.

(** The getters return for every state: no property of a missing override
    is read. *)
Lemma getItemsToShow_returns (this : SnapScroll) :
  exists n, getItemsToShow this = Returned n.
Proof.
  destruct (Options.responsive (options this)) as [B|] eqn:HB.
  - destruct (active_breakpoint_or_none B (Container.offsetWidth (container this)))
      as [(k & config & Hactive)|Hnone].
    + eexists. by eapply getItemsToShow_active.
    + eexists. by eapply getItemsToShow_none.
  - eexists. unfold getItemsToShow. by rewrite HB.
Qed.

Lemma getItemsToScroll_returns (this : SnapScroll) :
  exists n, getItemsToScroll this = Returned n.
Proof.
  destruct (Options.responsive (options this)) as [B|] eqn:HB.
  - destruct (active_breakpoint_or_none B (Container.offsetWidth (container this)))
      as [(k & config & Hactive)|Hnone].
    + eexists. by eapply getItemsToScroll_active.
    + eexists. by eapply getItemsToScroll_none.
  - eexists. unfold getItemsToScroll. by rewrite HB.
Qed.

Lemma getItemWidth_formula (this : SnapScroll) (n : num) :
  getItemsToShow this = Returned n ->
  getItemWidth this
  = Returned (of_Z (Container.offsetWidth (container this)) / n
              - Options.gap (options this))%num.
Proof. intros Hn. unfold getItemWidth. by rewrite Hn. Qed.

Lemma getItemWidth_returns (this : SnapScroll) :
  exists v, getItemWidth this = Returned v.
Proof.
  destruct (getItemsToShow_returns this) as [n Hn].
  eexists. by apply getItemWidth_formula.
Qed.

(** The getters read the options and the width of the container only. *)
Lemma getItemsToShow_frame (this this' : SnapScroll) :
  options this' = options this ->
  Container.offsetWidth (container this') = Container.offsetWidth (container this) ->
  getItemsToShow this' = getItemsToShow this.
Proof. intros Ho Hw. unfold getItemsToShow. by rewrite Ho, Hw. Qed.

Lemma getItemsToScroll_frame (this this' : SnapScroll) :
  options this' = options this ->
  Container.offsetWidth (container this') = Container.offsetWidth (container this) ->
  getItemsToScroll this' = getItemsToScroll this.
Proof. intros Ho Hw. unfold getItemsToScroll. by rewrite Ho, Hw. Qed.

Lemma getItemWidth_frame (this this' : SnapScroll) :
  options this' = options this ->
  Container.offsetWidth (container this') = Container.offsetWidth (container this) ->
  getItemWidth this' = getItemWidth this.
Proof.
  intros Ho Hw. unfold getItemWidth.
  by rewrite (getItemsToShow_frame this this'), Ho, Hw.
Qed.

(** ** The claims on breakpoint resolution *)

(** C1, as the code has it: resolution takes the single largest key of the
    breakpoint map that is at most the container width and merges only its
    override onto the base values: an absent field falls back to the base
    value, and so does an [itemsToShow] that is falsy (zero or NaN); with no
    key at most the width, the base values are returned unchanged.  In the
    scenario of the specification, at width 800, the result is
    [itemsToShow = 2], [itemsToScroll = 2]. *)
Theorem breakpoint_resolution_largest_key
    (this : SnapScroll) (B : gmap Z Override.t) :
  Options.responsive (options this) = Some B ->
  let w := Container.offsetWidth (container this) in
  let base := options this in
  (forall k config, active_breakpoint B w k config ->
     getItemsToShow this = Returned
       match Override.itemsToShow config with
       | Some v => if Num.truthy v then v else Options.itemsToShow base
       | None => Options.itemsToShow base
       end /\
     getItemsToScroll this = Returned
       match Override.itemsToScroll config with
       | Some v => v
       | None => Options.itemsToScroll base
       end) /\
  (no_breakpoint B w ->
     getItemsToShow this = Returned (Options.itemsToShow base) /\
     getItemsToScroll this = Returned (Options.itemsToScroll base)) /\
  (getItemsToShow (scenario 800) = Returned (of_Z 2) /\
   getItemsToScroll (scenario 800) = Returned (of_Z 2)).
Proof.
  intros HB w base. split; [|split].
  - intros k config Hactive. split.
    + by erewrite getItemsToShow_active.
    + by erewrite getItemsToScroll_active.
  - intros Hnone. split.
    + by apply getItemsToShow_none with B.
    + by apply getItemsToScroll_none with B.
  - split; compute_done.
Qed.

Lemma scenario_active_767 :
  active_breakpoint scenario_responsive 800 767 (Override.Make (Some (of_Z 2)) None).
Proof.
  split; [reflexivity|]. split; [lia|].
  change (map_Forall (fun k' _ => k' <= 800 -> k' <= 767) scenario_responsive).
  apply (bool_decide_unpack _). vm_compute. exact I.
Qed.

(** The scenario at width 800 through the theorem: 767 is the active
    breakpoint, and its override omits [itemsToScroll]. *)
Lemma breakpoint_resolution_witness :
  Options.responsive (options (scenario 800)) = Some scenario_responsive /\
  getItemsToShow (scenario 800) = Returned (of_Z 2) /\
  getItemsToScroll (scenario 800) = Returned (of_Z 2).
Proof.
  split; [reflexivity|].
  destruct (breakpoint_resolution_largest_key (scenario 800) scenario_responsive eq_refl)
    as [H _].
  exact (H 767 _ scenario_active_767).
Defined.

Lemma zero_active_0 :
  active_breakpoint zero_responsive 800 0 (Override.Make (Some (of_Z 0)) (Some (of_Z 0))).
Proof.
  split; [reflexivity|]. split; [lia|].
  change (map_Forall (fun k' _ => k' <= 800 -> k' <= 0) zero_responsive).
  apply (bool_decide_unpack _). vm_compute. exact I.
Qed.

(** C1 as stated fails where the winning override sets [itemsToShow] to 0:
    the merge of the override onto the base would give 0, and
    [getItemsToShow] returns the base value 3. *)
Lemma breakpoint_resolution_counterexample :
  Options.responsive (options zero_widget) = Some zero_responsive /\
  active_breakpoint zero_responsive (Container.offsetWidth (container zero_widget)) 0
    (Override.Make (Some (of_Z 0)) (Some (of_Z 0))) /\
  Options.itemsToShow (options zero_widget) = of_Z 3 /\
  getItemsToShow zero_widget = Returned (of_Z 3) /\
  getItemsToShow zero_widget <> Returned (of_Z 0).
Proof.
  split; [reflexivity|]. split; [exact zero_active_0|].
  split; [reflexivity|]. split; [compute_done|].
  intros H. assert (getItemsToShow zero_widget = Returned (of_Z 3)) as H3 by compute_done.
  rewrite H3 in H. revert H. compute_done.
Qed.

Lemma first_match_active_largest B w k config :
  active_breakpoint B w k config -> first_match_active B w = Returned (Some k).
Proof.
  intros Hactive. unfold first_match_active.
  erewrite first_match_largest; [done | apply Array_sort_descending | | apply Hactive].
  by eapply active_breakpoint_largest_in.
Qed.

Lemma first_match_active_none B w :
  no_breakpoint B w -> first_match_active B w = Returned None.
Proof.
  intros Hnone. unfold first_match_active.
  rewrite first_match_none; [done|]. by apply no_breakpoint_keys.
Qed.

Lemma last_match_active_largest B w k config :
  active_breakpoint B w k config -> last_match_active B w = Some k.
Proof.
  intros Hactive. unfold last_match_active.
  apply last_match_largest; [apply Array_sort_ascending|].
  by eapply active_breakpoint_largest_in.
Qed.

Lemma last_match_active_none B w :
  no_breakpoint B w -> last_match_active B w = None.
Proof.
  intros Hnone. unfold last_match_active.
  rewrite last_match_none; [done|]. by apply no_breakpoint_keys.
Qed.

(** C9: the descending first-match loop of [getItemsToShow] and the
    ascending last-match loop of [getItemsToScroll] leave the same
    breakpoint in [activeBreakpoint], for every breakpoint map and every
    container width; so each getter returns what its reading of the
    override gives at the breakpoint the other loop selects. *)
Theorem selection_loops_agree (B : gmap Z Override.t) (w : Z) :
  first_match_active B w = Returned (last_match_active B w) /\
  forall this,
    Options.responsive (options this) = Some B ->
    Container.offsetWidth (container this) = w ->
    let config := last_match_active B w ≫= (B !!.) in
    let config' :=
      match first_match_active B w with
      | Returned activeBreakpoint => activeBreakpoint ≫= (B !!.)
      | Thrown _ => None
      end in
    getItemsToShow this = Returned
      (or_else (config ≫= Override.itemsToShow) (Options.itemsToShow (options this))) /\
    getItemsToScroll this = Returned
      (if_defined (config' ≫= Override.itemsToScroll) (Options.itemsToScroll (options this))).
Proof.
  destruct (active_breakpoint_or_none B w) as [(k & config & Hactive)|Hnone].
  - rewrite (first_match_active_largest B w k config Hactive).
    rewrite (last_match_active_largest B w k config Hactive).
    split; [done|]. intros this HB <-. simpl.
    destruct Hactive as [Hk ?]. rewrite Hk. simpl. split.
    + by erewrite getItemsToShow_active.
    + by erewrite getItemsToScroll_active.
  - rewrite (first_match_active_none B w Hnone), (last_match_active_none B w Hnone).
    split; [done|]. intros this HB <-. simpl. split.
    + by apply getItemsToShow_none with B.
    + by apply getItemsToScroll_none with B.
Qed.

(** C10: the two getters treat an explicit zero in the winning override
    differently.  [getItemsToShow] reads [itemsToShow] with [||] and falls
    back to the base value; [getItemsToScroll] tests [itemsToScroll]
    against [undefined] and returns the zero.  With the override
    [{itemsToShow: 0, itemsToScroll: 0}] on base values 3 and 2 the resolved
    values are 3 and 0. *)
Theorem zero_override_asymmetry
    (this : SnapScroll) (B : gmap Z Override.t) (k : Z) (config : Override.t) :
  Options.responsive (options this) = Some B ->
  active_breakpoint B (Container.offsetWidth (container this)) k config ->
  (Override.itemsToShow config = Some (of_Z 0) ->
     getItemsToShow this = Returned (Options.itemsToShow (options this))) /\
  (Override.itemsToScroll config = Some (of_Z 0) ->
     getItemsToScroll this = Returned (of_Z 0)) /\
  (getItemsToShow zero_widget = Returned (of_Z 3) /\
   getItemsToScroll zero_widget = Returned (of_Z 0)).
Proof.
  intros HB Hactive. split; [|split].
  - intros Hzero. erewrite getItemsToShow_active by done. by rewrite Hzero.
  - intros Hzero. erewrite getItemsToScroll_active by done. by rewrite Hzero.
  - split; compute_done.
Qed.

(** The asymmetry on the widget whose only override is
    [{itemsToShow: 0, itemsToScroll: 0}]: the zero [itemsToShow] is
    discarded for the base value, the zero [itemsToScroll] is returned. *)
Lemma zero_override_asymmetry_witness :
  Options.responsive (options zero_widget) = Some zero_responsive /\
  getItemsToShow zero_widget = Returned (Options.itemsToShow (options zero_widget)) /\
  getItemsToScroll zero_widget = Returned (of_Z 0).
Proof.
  split; [reflexivity|].
  destruct (zero_override_asymmetry zero_widget zero_responsive 0 _ eq_refl zero_active_0)
    as (Hshow & Hscroll & _).
  split; [exact (Hshow eq_refl) | exact (Hscroll eq_refl)].
Defined.

(** ** The claims on the layout arithmetic *)

(** C6: the per-item width is the container width over the resolved
    items-to-show, minus the gap; at width 1000, four items and gap 20 it
    is 230. *)
Theorem item_width_formula :
  (forall this : SnapScroll, exists itemsToShow,
     getItemsToShow this = Returned itemsToShow /\
     getItemWidth this
     = Returned (of_Z (Container.offsetWidth (container this)) / itemsToShow
                 - Options.gap (options this))%num) /\
  (of_Z 1000 / of_Z 4 - of_Z 20)%num = of_Z 230 /\
  getItemWidth (widget 1000 (of_Z 0) (config_of 4 1 None)) = Returned (of_Z 230).
Proof.
  split; [|split; compute_done].
  intros this. destruct (getItemsToShow_returns this) as [n Hn].
  exists n. split; [done|]. by apply getItemWidth_formula.
Qed.

(** C7: [prev] and [next] compute the scroll amount as the item width plus
    the gap, times the breakpoint-resolved items-to-scroll, and ask the
    container to scroll by minus that amount and by that amount. *)
Theorem prev_next_scroll_amount (this : SnapScroll) :
  exists itemWidth effectiveItemsToScroll,
    getItemWidth this = Returned itemWidth /\
    getItemsToScroll this = Returned effectiveItemsToScroll /\
    let scrollAmount :=
      ((itemWidth + Options.gap (options this)) * effectiveItemsToScroll)%num in
    prev this
    = (Returned tt, set_container (Container.call (ScrollBy (- scrollAmount)%num)) this) /\
    next this
    = (Returned tt, set_container (Container.call (ScrollBy scrollAmount)) this).
Proof.
  destruct (getItemWidth_returns this) as [itemWidth Hw].
  destruct (getItemsToScroll_returns this) as [n Hn].
  exists itemWidth, n. split; [done|]. split; [done|].
  unfold prev, next, bind, get, modify. rewrite Hw, Hn. done.
Qed.

(** ** The claims on dragging and snapping *)

(** The state [endDrag] leaves before it snaps. *)
Lemma endDrag_snaps (this : SnapScroll) :
  endDrag this
  = snapToNearest
      (set_container (Container.set_cursor "grab")
         (set_container (Container.set_scrollBehavior "smooth")
            (set_isDragging false this))).
Proof. reflexivity. Qed.

Lemma snapToNearest_scrollTo (this : SnapScroll) (activeIndex : num) :
  snapToNearest_activeIndex this = Returned activeIndex ->
  snapToNearest this = scrollTo activeIndex this.
Proof. intros H. unfold snapToNearest, bind, get. by rewrite H. Qed.

Lemma snapToNearest_activeIndex_formula (this : SnapScroll) (itemWidth : num) :
  getItemWidth this = Returned itemWidth ->
  snapToNearest_activeIndex this
  = Returned (Num.round (Container.scrollLeft (container this)
                         / (itemWidth + Options.gap (options this))))%num.
Proof. intros H. unfold snapToNearest_activeIndex. by rewrite H. Qed.

(** [itemsToScroll] does not enter the snap target. *)
Lemma active_breakpoint_same_itemsToShow (B B' : gmap Z Override.t) w k config :
  (forall k, Override.itemsToShow <$> B !! k = Override.itemsToShow <$> B' !! k) ->
  active_breakpoint B w k config ->
  exists config',
    active_breakpoint B' w k config' /\
    Override.itemsToShow config' = Override.itemsToShow config.
Proof.
  intros Hsame (Hk & Hle & Hmax).
  pose proof (Hsame k) as Hsk. rewrite Hk in Hsk. simpl in Hsk.
  destruct (B' !! k) as [config'|] eqn:Hk'; [|done].
  exists config'. split; [|by injection Hsk].
  split; [done|]. split; [done|].
  intros k' config'' Hk'' Hk'le.
  pose proof (Hsame k') as Hsk'. rewrite Hk'' in Hsk'.
  destruct (B !! k') as [c|] eqn:HBk'; [|done]. by eapply Hmax.
Qed.

Lemma no_breakpoint_same_itemsToShow (B B' : gmap Z Override.t) w :
  (forall k, Override.itemsToShow <$> B !! k = Override.itemsToShow <$> B' !! k) ->
  no_breakpoint B w -> no_breakpoint B' w.
Proof.
  intros Hsame Hnone k config' Hk'.
  pose proof (Hsame k) as Hsk. rewrite Hk' in Hsk.
  destruct (B !! k) as [c|] eqn:HBk; [|done]. by eapply Hnone.
Qed.

Lemma getItemsToShow_ignores_itemsToScroll (this this' : SnapScroll) :
  Container.offsetWidth (container this') = Container.offsetWidth (container this) ->
  differ_only_in_itemsToScroll (options this) (options this') ->
  getItemsToShow this' = getItemsToShow this.
Proof.
  intros Hw (Hshow & _ & _ & _ & _ & Hresp).
  destruct (Options.responsive (options this)) as [B|] eqn:HB,
           (Options.responsive (options this')) as [B'|] eqn:HB'; try done.
  - destruct (active_breakpoint_or_none B (Container.offsetWidth (container this)))
      as [(k & config & Hactive)|Hnone].
    + destruct (active_breakpoint_same_itemsToShow B B' _ k config Hresp Hactive)
        as (config' & Hactive' & Hconfig).
      rewrite (getItemsToShow_active this B HB k config Hactive).
      rewrite <- Hw in Hactive'.
      rewrite (getItemsToShow_active this' B' HB' k config' Hactive').
      by rewrite Hconfig, Hshow.
    + rewrite (getItemsToShow_none this B HB Hnone).
      pose proof (no_breakpoint_same_itemsToShow B B' _ Hresp Hnone) as Hnone'.
      rewrite <- Hw in Hnone'.
      rewrite (getItemsToShow_none this' B' HB' Hnone'). by rewrite Hshow.
  - unfold getItemsToShow. by rewrite HB, HB', Hshow.
Qed.

Lemma snapToNearest_activeIndex_ignores_itemsToScroll (this this' : SnapScroll) :
  container this' = container this ->
  differ_only_in_itemsToScroll (options this) (options this') ->
  snapToNearest_activeIndex this' = snapToNearest_activeIndex this.
Proof.
  intros Hc Hdiff. unfold snapToNearest_activeIndex, getItemWidth.
  rewrite (getItemsToShow_ignores_itemsToScroll this this') by (by rewrite ?Hc).
  destruct Hdiff as (_ & _ & Hgap & _). by rewrite Hc, Hgap.
Qed.

(** C3, as the code has it: on drag release the snap target is computed
    from the current scroll offset, the item width and the gap, and
    [scrollTo] is called with it; no [itemsToScroll], of the base values or
    of an override, enters it.  On a widget that shows one item per page the
    target is the scroll offset over the item width plus the gap, rounded. *)
Theorem drag_release_snap_target (this : SnapScroll) :
  exists activeIndex,
    snapToNearest_activeIndex this = Returned activeIndex /\
    snapToNearest this = scrollTo activeIndex this /\
    endDrag this
    = scrollTo activeIndex
        (set_container (Container.set_cursor "grab")
           (set_container (Container.set_scrollBehavior "smooth")
              (set_isDragging false this))) /\
    (forall this',
       container this' = container this ->
       differ_only_in_itemsToScroll (options this) (options this') ->
       snapToNearest_activeIndex this' = Returned activeIndex) /\
    (getItemsToShow this = Returned (of_Z 1) ->
     exists itemWidth,
       getItemWidth this = Returned itemWidth /\
       activeIndex
       = Num.round (Container.scrollLeft (container this)
                    / (itemWidth + Options.gap (options this)))%num).
Proof.
  destruct (getItemWidth_returns this) as [itemWidth Hw].
  pose proof (snapToNearest_activeIndex_formula this itemWidth Hw) as Hindex.
  eexists. split; [exact Hindex|]. split; [|split; [|split]].
  - by apply snapToNearest_scrollTo.
  - rewrite endDrag_snaps. by apply snapToNearest_scrollTo.
  - intros this' Hc Hdiff.
    by rewrite (snapToNearest_activeIndex_ignores_itemsToScroll this this').
  - intros _. by exists itemWidth.
Qed.

(** C3 as stated fails on a widget that shows one item and scrolls two, at
    width 1000 and gap 20, released at offset 2000: the code snaps to index
    2 and asks for offset 2000; the stated formula, with the items-to-scroll
    factor, gives 1. *)
Lemma drag_release_snap_target_counterexample :
  getItemWidth snap_widget = Returned (of_Z 980) /\
  getItemsToScroll snap_widget = Returned (of_Z 2) /\
  Container.scrollLeft (container snap_widget) = of_Z 2000 /\
  Spec.pageForOffset (of_Z 2000) (of_Z 980) (of_Z 20) (of_Z 2) = of_Z 1 /\
  snapToNearest_activeIndex snap_widget = Returned (of_Z 2) /\
  Container.calls (container (endDrag snap_widget).2) = [ScrollTo (of_Z 2000)] /\
  snapToNearest_activeIndex snap_widget
  <> Returned (Spec.pageForOffset (of_Z 2000) (of_Z 980) (of_Z 20) (of_Z 2)).
Proof. repeat split; compute_done. Qed.

(** After [scrollTo p] the container is asked for the offset of page [p];
    with the container there, the snap target is [p] times the
    items-to-show. *)
Lemma snap_after_scrollTo (this : SnapScroll) (iw g : Qc) (n p : Z) :
  getItemWidth this = Returned (Fin iw) ->
  Options.gap (options this) = Fin g ->
  (iw + g)%Qc <> 0%Qc ->
  getItemsToShow this = Returned (of_Z n) ->
  exists left,
    scrollTo (of_Z p) this
    = (Returned tt, set_container (Container.call (ScrollTo left)) this) /\
    snapToNearest_activeIndex (scrolled left this) = Returned (of_Z (n * p)).
Proof.
  intros Hw Hg Hstride Hn. eexists. split.
  - unfold scrollTo, bind, get, modify. rewrite Hw, Hn. reflexivity.
  - unfold snapToNearest_activeIndex.
    rewrite (getItemWidth_frame this) by done. rewrite Hw. simpl.
    rewrite Hg. simpl. f_equal.
    case_decide; [done|].
    replace ((iw + g) * Qc_of_Z n * Qc_of_Z p / (iw + g))%Qc
      with (Qc_of_Z (n * p)) by (rewrite Z2Qc_inj_mul; field; done).
    apply round_of_Z.
Qed.

(** The round trip of the specification's own functions, on integers. *)
Lemma Spec_round_trip (iw g : Qc) (n p : Z) :
  ((iw + g) * Qc_of_Z n)%Qc <> 0%Qc ->
  Spec.pageForOffset (Spec.offsetForPage (of_Z p) (Fin iw) (Fin g) (of_Z n))
    (Fin iw) (Fin g) (of_Z n) = of_Z p.
Proof.
  intros Hstride. unfold Spec.pageForOffset, Spec.offsetForPage, of_Z.
  change (Num.round (Fin (Qc_of_Z p * Qc_of_Z n * (iw + g))
                     / Fin ((iw + g) * Qc_of_Z n))%num = Fin (Qc_of_Z p)).
  replace (Qc_of_Z p * Qc_of_Z n * (iw + g))%Qc
    with ((iw + g) * Qc_of_Z n * Qc_of_Z p)%Qc by ring.
  rewrite div_mul_cancel by done. apply round_of_Z.
Qed.

(** C5 on the code: with two items per page, at width 1000 and gap 20,
    [scrollTo 1] asks for offset 1000; with the container there, the snap
    target is 2, not 1, and a release scrolls on to offset 2000.  The
    active dot index of [updateActiveDot] at the same offset is 1, and so is
    the round trip of the specification's own functions. *)
Theorem snap_after_scrollTo_changes_page :
  getItemWidth paged_widget = Returned (of_Z 480) /\
  getItemsToShow paged_widget = Returned (of_Z 2) /\
  Container.calls (container (scrollTo (of_Z 1) paged_widget).2) = [ScrollTo (of_Z 1000)] /\
  snapToNearest_activeIndex (scrolled (of_Z 1000) paged_widget) = Returned (of_Z 2) /\
  Container.calls (container (endDrag (scrolled (of_Z 1000) paged_widget)).2)
  = [ScrollTo (of_Z 2000)] /\
  updateActiveDot_activeIndex (scrolled (of_Z 1000) paged_widget) = Returned (of_Z 1) /\
  Spec.pageForOffset (Spec.offsetForPage (of_Z 1) (of_Z 480) (of_Z 20) (of_Z 2))
    (of_Z 480) (of_Z 20) (of_Z 2) = of_Z 1.
Proof. repeat split; compute_done. Qed.

(** C8, as the code has it: [startDrag] has no guard.  A pointer-down that
    arrives while dragging records the event's position in [startX] and the
    container's current offset in [scrollLeft], as one arriving when idle
    does, and the state stays dragging. *)
Theorem startDrag_while_dragging (this : SnapScroll) (e : event) (x : num) :
  isDragging this = true ->
  event_pageX e = Returned x ->
  exists this',
    startDrag e this = (Returned tt, this') /\
    isDragging this' = true /\
    startX this' = x /\
    scrollLeft this' = Container.scrollLeft (container this) /\
    startDrag e (set_isDragging false this) = (Returned tt, this').
Proof.
  intros Hdragging Hx. eexists. split; [|split; [|split; [|split]]].
  - unfold startDrag, bind, get, modify. rewrite Hx. reflexivity.
  - reflexivity.
  - reflexivity.
  - reflexivity.
  - unfold startDrag, bind, get, modify. rewrite Hx. reflexivity.
Qed.

(** A second pointer-down, at 300, on the drag in progress. *)
Lemma startDrag_while_dragging_witness :
  isDragging dragging_widget = true /\
  exists this',
    startDrag (MouseEvent (of_Z 300)) dragging_widget = (Returned tt, this') /\
    isDragging this' = true /\
    startX this' = of_Z 300 /\
    scrollLeft this' = Container.scrollLeft (container dragging_widget) /\
    startDrag (MouseEvent (of_Z 300)) (set_isDragging false dragging_widget)
    = (Returned tt, this').
Proof.
  split; [reflexivity|].
  apply (startDrag_while_dragging dragging_widget (MouseEvent (of_Z 300)) (of_Z 300));
    reflexivity.
Defined.

(** C8 as stated fails on the drag in progress, which started at 100 with
    the container at 0 and has scrolled it to 50: a second pointer-down at
    300 changes [startX] to 300 and [scrollLeft] to 50. *)
Lemma startDrag_while_dragging_counterexample :
  isDragging dragging_widget = true /\
  startX dragging_widget = of_Z 100 /\
  scrollLeft dragging_widget = of_Z 0 /\
  Container.scrollLeft (container dragging_widget) = of_Z 50 /\
  startX (startDrag (MouseEvent (of_Z 300)) dragging_widget).2 = of_Z 300 /\
  scrollLeft (startDrag (MouseEvent (of_Z 300)) dragging_widget).2 = of_Z 50 /\
  (startDrag (MouseEvent (of_Z 300)) dragging_widget).2 <> dragging_widget.
Proof. repeat split; compute_done. Qed.

(** ** The claim on the resize handler *)

(** What [handleResize] does when the resolved values changed: the index
    and the new offset are both computed with the item width of the
    container as it is now. *)
Lemma update_None (this : SnapScroll) (itemWidth : num) :
  getItemWidth this = Returned itemWidth ->
  update None this
  = (Returned tt, set_items (map (fun _ => Some itemWidth) (items this)) this).
Proof.
  intros Hw. destruct (getItemsToShow_returns this) as [n Hn].
  unfold update, bind, get, modify, ret. by rewrite Hn, Hw.
Qed.

Lemma handleResize_offset (this : SnapScroll) (currentItemsToShow currentItemsToScroll w : num) :
  getItemsToShow this = Returned currentItemsToShow ->
  getItemsToScroll this = Returned currentItemsToScroll ->
  getItemWidth this = Returned w ->
  let prevItemsToShow :=
    or_else (Breakpoint.itemsToShow <$> currentBreakpoint this)
      (Options.itemsToShow (options this)) in
  let prevItemsToScroll :=
    or_else (Breakpoint.itemsToScroll <$> currentBreakpoint this)
      (Options.itemsToScroll (options this)) in
  Num.strict_ne currentItemsToShow prevItemsToShow
  || Num.strict_ne currentItemsToScroll prevItemsToScroll = true ->
  let itemWidth := (w + Options.gap (options this))%num in
  let currentIndex :=
    Num.round (Container.scrollLeft (container this) / (itemWidth * prevItemsToShow))%num in
  exists this',
    handleResize this = (Returned tt, this') /\
    Container.scrollLeft (container this') = (currentIndex * (itemWidth * currentItemsToShow))%num /\
    currentBreakpoint this' = Some (Breakpoint.Make currentItemsToShow currentItemsToScroll) /\
    items this' = map (fun _ => Some w) (items this).
Proof.
  intros Hshow Hscroll Hw prevItemsToShow prevItemsToScroll Hchanged itemWidth currentIndex.
  eexists. split.
  - unfold handleResize. unfold bind at 1 2 3 4. unfold get at 1 2 3 4.
    rewrite Hshow, Hscroll. fold prevItemsToShow prevItemsToScroll. rewrite Hchanged.
    unfold bind at 1 2. unfold modify at 1. unfold get at 1.
    rewrite (getItemsToScroll_frame this) by done. rewrite Hscroll.
    unfold bind at 1. rewrite (update_None _ w) by (by rewrite (getItemWidth_frame this)).
    unfold bind, get, modify.
    rewrite (getItemWidth_frame this) by done. rewrite Hw.
    reflexivity.
  - split; [reflexivity|]. split; reflexivity.
Qed.

(** C2 on the code: a widget shows two items below width 1024 and four
    from there on, with gap 20.  At width 1023 the item width is 491.5 and
    offset 2046 is the start of page 2.  When the container grows to 1024,
    the item width is 236; [handleResize] divides the offset by this new
    item width plus the gap, times the old items-to-show, gets index 4 and
    moves the container to 4096, the start of page 4.  With the old item
    width the index is 2 and the new offset 2048. *)
Theorem handleResize_uses_new_item_width :
  getItemsToShow (resize_widget 1023) = Returned (of_Z 2) /\
  getItemWidth (resize_widget 1023) = Returned (of_Z 983 / of_Z 2)%num /\
  updateActiveDot_activeIndex (resize_widget 1023) = Returned (of_Z 2) /\
  getItemsToShow (resize_widget 1024) = Returned (of_Z 4) /\
  getItemWidth (resize_widget 1024) = Returned (of_Z 236) /\
  (handleResize (resize_widget 1024)).1 = Returned tt /\
  Container.scrollLeft (container (handleResize (resize_widget 1024)).2) = of_Z 4096 /\
  updateActiveDot_activeIndex (handleResize (resize_widget 1024)).2 = Returned (of_Z 4) /\
  Spec.reconcile (of_Z 2046) (of_Z 983 / of_Z 2)%num (of_Z 20) (of_Z 2)
    (of_Z 236) (of_Z 20) (of_Z 4) = of_Z 2048.
Proof. repeat split; compute_done. Qed.

(** ** The claim on invalid configurations *)

(** Navigation and snapping return for every state. *)
Lemma scrollTo_returns (index : num) (this : SnapScroll) :
  exists this', scrollTo index this = (Returned tt, this').
Proof.
  destruct (getItemWidth_returns this) as [w Hw].
  destruct (getItemsToShow_returns this) as [n Hn].
  unfold scrollTo, bind, get, modify. rewrite Hw, Hn. by eexists.
Qed.

Lemma snapToNearest_returns (this : SnapScroll) :
  exists this', snapToNearest this = (Returned tt, this').
Proof.
  destruct (getItemWidth_returns this) as [w Hw].
  rewrite (snapToNearest_scrollTo this _ (snapToNearest_activeIndex_formula this w Hw)).
  apply scrollTo_returns.
Qed.

Lemma endDrag_returns (this : SnapScroll) :
  exists this', endDrag this = (Returned tt, this').
Proof. rewrite endDrag_snaps. apply snapToNearest_returns. Qed.

(** C4, as the code has it: nothing is validated and no error is raised.
    The constructor stores the [itemsToShow] and [itemsToScroll] it is
    given, whatever their sign, and for every state the getters,
    [getItemWidth], [prev], [next], [scrollTo], [snapToNearest] and
    [endDrag] return; [getItemWidth] is the container width over the
    items-to-show minus the gap there too: -1020
    for [itemsToShow = -1] at width 1000 and gap 20, [Infinity] for
    [itemsToShow = 0], and -20 for a container of width 0. *)
Theorem invalid_values_are_not_rejected :
  (forall c children opts v,
     Config.itemsToShow opts = Some v ->
     Options.itemsToShow (options (constructor c children opts)) = v) /\
  (forall c children opts v,
     Config.itemsToScroll opts = Some v ->
     Options.itemsToScroll (options (constructor c children opts)) = v) /\
  (forall this : SnapScroll,
     (exists n, getItemsToShow this = Returned n) /\
     (exists n, getItemsToScroll this = Returned n) /\
     (exists v, getItemWidth this = Returned v) /\
     (exists this', prev this = (Returned tt, this')) /\
     (exists this', next this = (Returned tt, this')) /\
     (forall index, exists this', scrollTo index this = (Returned tt, this')) /\
     (exists this', snapToNearest this = (Returned tt, this')) /\
     (exists this', endDrag this = (Returned tt, this'))) /\
  getItemWidth (widget 1000 (of_Z 0) (config_of (-1) 1 None)) = Returned (of_Z (-1020)) /\
  getItemWidth (widget 1000 (of_Z 0) (config_of 0 1 None)) = Returned PInf /\
  getItemWidth (widget 0 (of_Z 0) (config_of 1 1 None)) = Returned (of_Z (-20)).
Proof.
  split; [|split; [|split; [|repeat split; compute_done]]].
  - intros c children opts v Hv. simpl. by rewrite Hv.
  - intros c children opts v Hv. simpl. by rewrite Hv.
  - intros this.
    destruct (getItemsToShow_returns this) as [n Hn].
    destruct (getItemsToScroll_returns this) as [m Hm].
    destruct (getItemWidth_returns this) as [v Hv].
    split; [by exists n|]. split; [by exists m|]. split; [by exists v|].
    split; [unfold prev, bind, get, modify; rewrite Hv, Hm; by eexists|].
    split; [unfold next, bind, get, modify; rewrite Hv, Hm; by eexists|].
    split; [intros index; apply scrollTo_returns|].
    split; [apply snapToNearest_returns|].
    apply endDrag_returns.
Qed.

(** C4 as stated fails: with [itemsToShow = -1] and [itemsToScroll = 0] at
    width 1000, with [itemsToShow = 0], and with a container of width 0,
    [getItemWidth] returns a number and [prev] returns. *)
Lemma invalid_values_counterexample :
  Options.itemsToShow (options (widget 1000 (of_Z 0) (config_of (-1) 0 None))) = of_Z (-1) /\
  Options.itemsToScroll (options (widget 1000 (of_Z 0) (config_of (-1) 0 None))) = of_Z 0 /\
  getItemWidth (widget 1000 (of_Z 0) (config_of (-1) 0 None)) = Returned (of_Z (-1020)) /\
  (prev (widget 1000 (of_Z 0) (config_of (-1) 0 None))).1 = Returned tt /\
  getItemWidth (widget 1000 (of_Z 0) (config_of 0 1 None)) = Returned PInf /\
  getItemWidth (widget 0 (of_Z 0) (config_of 1 1 None)) = Returned (of_Z (-20)) /\
  (forall e, getItemWidth (widget 1000 (of_Z 0) (config_of (-1) 0 None)) <> Thrown e).
Proof.
  repeat split; try compute_done.
  intros e. assert (getItemWidth (widget 1000 (of_Z 0) (config_of (-1) 0 None))
                    = Returned (of_Z (-1020))) as -> by compute_done.
  discriminate.
Qed.

(** * Further properties *)

(** ** Resolution between breakpoints *)

Lemma active_breakpoint_wider (B : gmap Z Override.t) (w w' k : Z) (config : Override.t) :
  w <= w' ->
  (forall k' config', B !! k' = Some config' -> ~ (w < k' <= w')) ->
  active_breakpoint B w k config -> active_breakpoint B w' k config.
Proof.
  intros Hww Hgap (Hk & Hle & Hmax). split; [done|]. split; [lia|].
  intros k' config' Hk' Hk'le. apply (Hmax k' config' Hk').
  specialize (Hgap k' config' Hk'). lia.
Qed.

Lemma no_breakpoint_wider (B : gmap Z Override.t) (w w' : Z) :
  (forall k' config', B !! k' = Some config' -> ~ (w < k' <= w')) ->
  no_breakpoint B w -> no_breakpoint B w'.
Proof.
  intros Hgap Hnone k config Hk. specialize (Hnone k config Hk).
  specialize (Hgap k config Hk). lia.
Qed.

(** X1: the resolved values change only where the width crosses a
    breakpoint: two widths with no key of the map between them (above the
    smaller, at most the larger) resolve to the same [itemsToShow] and the
    same [itemsToScroll]. *)
Theorem resolution_constant_between_breakpoints
    (this this' : SnapScroll) (B : gmap Z Override.t) :
  options this' = options this ->
  Options.responsive (options this) = Some B ->
  Container.offsetWidth (container this) <= Container.offsetWidth (container this') ->
  (forall k config, B !! k = Some config ->
     ~ (Container.offsetWidth (container this) < k
        <= Container.offsetWidth (container this'))) ->
  getItemsToShow this' = getItemsToShow this /\
  getItemsToScroll this' = getItemsToScroll this.
Proof.
  intros Ho HB Hww Hgap.
  assert (Options.responsive (options this') = Some B) as HB' by (by rewrite Ho).
  destruct (active_breakpoint_or_none B (Container.offsetWidth (container this)))
    as [(k & config & Hactive)|Hnone].
  - pose proof (active_breakpoint_wider B _ _ k config Hww Hgap Hactive) as Hactive'.
    rewrite (getItemsToShow_active this B HB k config Hactive).
    rewrite (getItemsToShow_active this' B HB' k config Hactive').
    rewrite (getItemsToScroll_active this B HB k config Hactive).
    rewrite (getItemsToScroll_active this' B HB' k config Hactive').
    by rewrite Ho.
  - pose proof (no_breakpoint_wider B _ _ Hgap Hnone) as Hnone'.
    rewrite (getItemsToShow_none this B HB Hnone).
    rewrite (getItemsToShow_none this' B HB' Hnone').
    rewrite (getItemsToScroll_none this B HB Hnone).
    rewrite (getItemsToScroll_none this' B HB' Hnone').
    by rewrite Ho.
Qed.

(** The scenario at widths 800 and 1000: no key lies between them. *)
Lemma resolution_constant_between_breakpoints_witness :
  getItemsToShow (scenario 1000) = getItemsToShow (scenario 800) /\
  getItemsToScroll (scenario 1000) = getItemsToScroll (scenario 800).
Proof.
  apply (resolution_constant_between_breakpoints (scenario 800) (scenario 1000)
           scenario_responsive); [reflexivity | reflexivity | simpl; lia |].
  change (map_Forall (fun k _ => ~ (800 < k <= 1000)) scenario_responsive).
  apply (bool_decide_unpack _). vm_compute. exact I.
Defined.

Lemma or_else_truthy_or_default (v : option num) (d : num) :
  or_else v d = d \/ Num.truthy (or_else v d) = true.
Proof.
  destruct v as [x|]; [|by left]. unfold or_else.
  destruct (Num.truthy x) eqn:Hx; [by right | by left].
Qed.

Lemma or_else_truthy_default (v : option num) (d : num) :
  Num.truthy d = true -> Num.truthy (or_else v d) = true.
Proof.
  intros Hd. destruct (or_else_truthy_or_default v d) as [->|H]; done.
Qed.

(** X2: a falsy [itemsToShow] of an override never reaches the layout:
    when the base [itemsToShow] is truthy, [getItemsToShow] returns a
    truthy number (not zero, not NaN) for every breakpoint map and every
    width, so that [getItemWidth] never divides by zero. *)
Theorem getItemsToShow_truthy (this : SnapScroll) :
  Num.truthy (Options.itemsToShow (options this)) = true ->
  exists n,
    getItemsToShow this = Returned n /\
    Num.truthy n = true /\
    n <> of_Z 0 /\ n <> NaN.
Proof.
  intros Hbase.
  assert (exists n, getItemsToShow this = Returned n /\ Num.truthy n = true)
    as (n & Hn & Tn).
  { destruct (Options.responsive (options this)) as [B|] eqn:HB.
    - destruct (active_breakpoint_or_none B (Container.offsetWidth (container this)))
        as [(k & config & Hactive)|Hnone].
      + eexists. split; [by eapply getItemsToShow_active|].
        by apply or_else_truthy_default.
      + eexists. split; [by eapply getItemsToShow_none | done].
    - eexists. split; [|exact Hbase]. unfold getItemsToShow. by rewrite HB. }
  exists n. split; [done|]. split; [done|]. by apply truthy_spec.
Qed.

(** On the widget whose only override sets [itemsToShow] to 0, over the
    base value 3. *)
Lemma getItemsToShow_truthy_witness :
  exists n,
    getItemsToShow zero_widget = Returned n /\
    Num.truthy n = true /\
    n <> of_Z 0 /\ n <> NaN.
Proof. apply (getItemsToShow_truthy zero_widget). vm_compute. reflexivity. Defined.

(** ** The layout, on finite numbers *)

Lemma div_Fin (x y : Qc) : y <> 0%Qc -> (Fin x / Fin y)%num = Fin (x / y)%Qc.
Proof. intros Hy. unfold Num.div. by case_decide. Qed.

Lemma page_width_nonzero (this : SnapScroll) :
  Container.offsetWidth (container this) <> 0 -> page_width this <> 0%Qc.
Proof. intros HW. unfold page_width. rewrite <- Z2Qc_inj_0. by intros ?%Z2Qc_inj. Qed.

Section finite_layout.

Variable this : SnapScroll.
Variables n g : Qc.
Hypothesis Hshow : getItemsToShow this = Returned (Fin n).
Hypothesis Hn : n <> 0%Qc.
Hypothesis Hgap : Options.gap (options this) = Fin g.

Lemma getItemWidth_finite :
  getItemWidth this = Returned (Fin (page_width this / n - g)%Qc).
Proof.
  rewrite (getItemWidth_formula this (Fin n) Hshow), Hgap.
  unfold Num.sub, of_Z. rewrite div_Fin by done. reflexivity.
Qed.

Lemma item_stride_finite :
  (Fin (page_width this / n - g)%Qc + Options.gap (options this))%num
  = Fin (page_width this / n)%Qc.
Proof.
  rewrite Hgap.
  change (Fin (page_width this / n - g + g)%Qc = Fin (page_width this / n)%Qc).
  f_equal. ring.
Qed.

Lemma page_stride_finite :
  ((Fin (page_width this / n - g)%Qc + Options.gap (options this)) * Fin n)%num
  = Fin (page_width this).
Proof.
  rewrite item_stride_finite.
  change (Fin (page_width this / n * n)%Qc = Fin (page_width this)).
  f_equal. field. done.
Qed.

Lemma scrollTo_finite (x : Qc) :
  scrollTo (Fin x) this
  = (Returned tt,
     set_container (Container.call (ScrollTo (Fin (page_width this * x)%Qc))) this).
Proof.
  unfold scrollTo, bind, get, modify. rewrite getItemWidth_finite, Hshow.
  rewrite page_stride_finite. reflexivity.
Qed.

Lemma updateActiveDot_after_scrollTo (p : Z) :
  page_width this <> 0%Qc ->
  updateActiveDot_activeIndex (scrolled (Fin (page_width this * Qc_of_Z p)%Qc) this)
  = Returned (of_Z p).
Proof.
  intros HW. unfold updateActiveDot_activeIndex.
  rewrite (getItemWidth_frame this) by done.
  rewrite (getItemsToShow_frame this) by done.
  rewrite getItemWidth_finite, Hshow.
  change (Options.gap (options (scrolled ?x this))) with (Options.gap (options this)).
  cbn [bind_outcome]. rewrite page_stride_finite.
  change (Container.scrollLeft (container (scrolled ?x this))) with x.
  rewrite div_mul_cancel by done. f_equal. apply round_of_Z.
Qed.


End finite_layout.





(** X5: the active dot index follows [scrollTo]: once the container is at
    the offset that [scrollTo p] asks for, [updateActiveDot] computes the
    index [p], for every integer [p], on finite numbers with a resolved
    [itemsToShow] and a container width that are not zero. *)
Theorem active_dot_index_after_scrollTo (this : SnapScroll) (n g : Qc) (p : Z) :
  getItemsToShow this = Returned (Fin n) ->
  n <> 0%Qc ->
  Options.gap (options this) = Fin g ->
  Container.offsetWidth (container this) <> 0 ->
  exists left,
    scrollTo (of_Z p) this
    = (Returned tt, set_container (Container.call (ScrollTo left)) this) /\
    updateActiveDot_activeIndex (scrolled left this) = Returned (of_Z p).
Proof.
  intros Hshow Hn Hgap HW. exists (Fin (page_width this * Qc_of_Z p)%Qc). split.
  - by apply (scrollTo_finite this n g).
  - apply (updateActiveDot_after_scrollTo this n g Hshow Hn Hgap).
    by apply page_width_nonzero.
Qed.

(** Page 3 of the widget that shows two items per page. *)
Lemma active_dot_index_after_scrollTo_witness :
  exists left,
    scrollTo (of_Z 3) paged_widget
    = (Returned tt, set_container (Container.call (ScrollTo left)) paged_widget) /\
    updateActiveDot_activeIndex (scrolled left paged_widget) = Returned (of_Z 3).
Proof.
  apply (active_dot_index_after_scrollTo paged_widget (Qc_of_Z 2) (Qc_of_Z 20) 3);
    [vm_compute; reflexivity | by vm_compute | reflexivity | by vm_compute].
Defined.

(** X6: with one item per page a snapped position is stable: once the
    container is at the offset that [scrollTo p] asks for, [snapToNearest]
    asks for that same offset. *)
Theorem snap_is_stable_with_one_item_per_page (this : SnapScroll) (g : Qc) (p : Z) :
  getItemsToShow this = Returned (of_Z 1) ->
  Options.gap (options this) = Fin g ->
  Container.offsetWidth (container this) <> 0 ->
  exists left,
    scrollTo (of_Z p) this
    = (Returned tt, set_container (Container.call (ScrollTo left)) this) /\
    snapToNearest (scrolled left this)
    = (Returned tt, set_container (Container.call (ScrollTo left)) (scrolled left this)).
Proof.
  intros Hshow Hgap HW.
  assert (Qc_of_Z 1 <> 0%Qc) as H1 by (by vm_compute).
  pose proof (page_width_nonzero this HW) as HW'.
  exists (Fin (page_width this * Qc_of_Z p)%Qc). split.
  - by apply (scrollTo_finite this (Qc_of_Z 1) g).
  - assert (snapToNearest_activeIndex (scrolled (Fin (page_width this * Qc_of_Z p)%Qc) this)
            = Returned (of_Z p)) as Hindex.
    { rewrite (snapToNearest_activeIndex_formula _ (Fin (page_width this / Qc_of_Z 1 - g)%Qc)).
      - change (Options.gap (options (scrolled ?x this))) with (Options.gap (options this)).
        change (Container.scrollLeft (container (scrolled ?x this))) with x.
        rewrite (item_stride_finite this (Qc_of_Z 1) g Hgap).
        replace (page_width this / Qc_of_Z 1)%Qc with (page_width this)
          by (rewrite Z2Qc_inj_1; symmetry; apply (right_id 1%Qc Qcdiv)).
        rewrite div_mul_cancel by done. f_equal. apply round_of_Z.
      - rewrite (getItemWidth_frame this) by done.
        by apply getItemWidth_finite. }
    rewrite (snapToNearest_scrollTo _ _ Hindex).
    by apply (scrollTo_finite (scrolled _ this) (Qc_of_Z 1) g).
Qed.

(** One item per page at width 1000: page 2 is at offset 2000, and a
    release there asks for 2000 again. *)
Lemma snap_is_stable_with_one_item_per_page_witness :
  exists left,
    scrollTo (of_Z 2) snap_widget
    = (Returned tt, set_container (Container.call (ScrollTo left)) snap_widget) /\
    snapToNearest (scrolled left snap_widget)
    = (Returned tt,
       set_container (Container.call (ScrollTo left)) (scrolled left snap_widget)).
Proof.
  apply (snap_is_stable_with_one_item_per_page snap_widget (Qc_of_Z 20) 2);
    [vm_compute; reflexivity | reflexivity | by vm_compute].
Defined.

(** ** Dragging *)

Lemma drag_idle (e : event) (this : SnapScroll) :
  isDragging this = false -> drag e this = (Returned tt, this).
Proof. intros H. unfold drag. by rewrite H. Qed.

Lemma drag_moves (e : event) (x : num) (this : SnapScroll) :
  isDragging this = true ->
  event_pageX e = Returned x ->
  drag e this
  = (Returned tt, scrolled (scrollLeft this - (x - startX this) * of_Z 2)%num this).
Proof.
  intros Hd Hx. unfold drag. rewrite Hd. unfold bind, get, modify. by rewrite Hx.
Qed.

Lemma drag_throws (e : event) (err : exn) (this : SnapScroll) :
  event_pageX e = Thrown err -> (drag e this).2 = this.
Proof.
  intros Hx. unfold drag. destruct (isDragging this); [|done].
  unfold bind, get. by rewrite Hx.
Qed.

Lemma drag_overwrites (e e1 : event) (x : num) (this : SnapScroll) :
  event_pageX e = Returned x ->
  drag e (drag e1 this).2 = drag e this.
Proof.
  intros Hx. destruct (isDragging this) eqn:Hd.
  - destruct (event_pageX e1) as [x1|err] eqn:Hx1.
    + rewrite (drag_moves e1 x1 this Hd Hx1). cbn [snd].
      rewrite (drag_moves e x this Hd Hx).
      rewrite (drag_moves e x (scrolled _ this) Hd Hx). reflexivity.
    + by rewrite (drag_throws e1 err this Hx1).
  - by rewrite (drag_idle e1 this Hd).
Qed.

Lemma startDrag_returns (e : event) (x : num) (this : SnapScroll) :
  event_pageX e = Returned x ->
  startDrag e this
  = (Returned tt,
     set_container (Container.set_cursor "grabbing")
       (set_container (Container.set_scrollBehavior "auto")
          (set_scrollLeft (Container.scrollLeft (container this))
             (set_startX x (set_isDragging true this))))).
Proof. intros Hx. unfold startDrag, bind, get, modify. by rewrite Hx. Qed.

(** X7: a drag follows the pointer from where it went down, at twice its
    speed and against its direction: after a pointer-down at [x0] with the
    container at offset [s0], a move to [x] puts the container at
    [s0 - 2 * (x - x0)], whatever moves came before it; the anchor
    ([startX], [scrollLeft]) is kept and the widget stays dragging. *)
Theorem drag_gesture (this : SnapScroll) (e0 e : event) (x0 x s0 : Qc) :
  event_pageX e0 = Returned (Fin x0) ->
  event_pageX e = Returned (Fin x) ->
  Container.scrollLeft (container this) = Fin s0 ->
  let pressed := (startDrag e0 this).2 in
  Container.scrollLeft (container (drag e pressed).2) = Fin (s0 - 2 * (x - x0))%Qc /\
  (forall e1, drag e (drag e1 pressed).2 = drag e pressed) /\
  (drag e pressed).1 = Returned tt /\
  startX (drag e pressed).2 = Fin x0 /\
  scrollLeft (drag e pressed).2 = Fin s0 /\
  isDragging (drag e pressed).2 = true.
Proof.
  intros Hx0 Hx Hs pressed. unfold pressed.
  rewrite (startDrag_returns e0 _ this Hx0). cbn [snd].
  split; [|split; [intros e1; by apply drag_overwrites with (Fin x)|]].
  - erewrite drag_moves by (done || reflexivity). simpl. rewrite Hs. simpl.
    f_equal. rewrite <- Z2Qc_inj_2. ring.
  - erewrite drag_moves by (done || reflexivity). simpl. by rewrite Hs.
Qed.

(** Down at 100 with the container at 0, then a move to 75: the container
    is at 50. *)
Lemma drag_gesture_witness :
  Container.scrollLeft
    (container
       (drag (MouseEvent (of_Z 75))
          (startDrag (MouseEvent (of_Z 100)) (widget 1000 (of_Z 0) Config.empty)).2).2)
  = of_Z 50.
Proof.
  destruct (drag_gesture (widget 1000 (of_Z 0) Config.empty)
              (MouseEvent (of_Z 100)) (MouseEvent (of_Z 75))
              (Qc_of_Z 100) (Qc_of_Z 75) (Qc_of_Z 0)) as [H _];
    [reflexivity | reflexivity | reflexivity |].
  rewrite H. unfold of_Z. f_equal. apply Qc_is_canon. reflexivity.
Defined.

(** X8: a pointer-down whose position cannot be read (a mouse event with
    [pageX] 0, whose [touches] is undefined, or a touch event with no
    touch point) throws after [isDragging] is set: the widget is left
    dragging with the anchor of the drag before, and the next move scrolls
    the container from that stale anchor. *)
Theorem startDrag_without_position (this : SnapScroll) (e : event) (err : exn) :
  event_pageX e = Thrown err ->
  startDrag e this = (Thrown err, set_isDragging true this) /\
  forall e' x,
    event_pageX e' = Returned x ->
    drag e' (startDrag e this).2
    = (Returned tt,
       scrolled (scrollLeft this - (x - startX this) * of_Z 2)%num
         (set_isDragging true this)).
Proof.
  intros He.
  assert (startDrag e this = (Thrown err, set_isDragging true this)) as Hs.
  { unfold startDrag, bind, get, modify. by rewrite He. }
  split; [done|]. intros e' x Hx. rewrite Hs. cbn [snd].
  by rewrite (drag_moves e' x (set_isDragging true this) eq_refl Hx).
Qed.

(** A mouse-down at the left edge of the page, on an idle widget. *)
Lemma startDrag_without_position_witness :
  event_pageX (MouseEvent (of_Z 0)) = Thrown TypeError /\
  event_pageX (TouchEvent []) = Thrown TypeError /\
  startDrag (MouseEvent (of_Z 0)) paged_widget
  = (Thrown TypeError, set_isDragging true paged_widget).
Proof.
  split; [reflexivity|]. split; [reflexivity|].
  apply (startDrag_without_position paged_widget (MouseEvent (of_Z 0)) TypeError).
  reflexivity.
Defined.

(** ** The resize handler *)

Lemma strict_ne_false (a b : num) : Num.strict_ne a b = false -> a = b.
Proof.
  destruct a, b; simpl; try done.
  intros H. apply bool_decide_eq_false in H. f_equal.
  destruct (decide (q = q0)); [done | by destruct H].
Qed.

Lemma strict_ne_refl (a : num) : Num.truthy a = true -> Num.strict_ne a a = false.
Proof.
  destruct a; simpl; try done. intros _. apply bool_decide_eq_false. by intros H.
Qed.

Lemma strict_ne_zero_truthy (p : num) :
  Num.truthy p = true -> Num.strict_ne (of_Z 0) p = true.
Proof.
  destruct p as [q| | |]; simpl; try done.
  rewrite !bool_decide_eq_true. intros Hq Heq. apply Hq. rewrite <- Heq.
  apply Qc_is_canon. reflexivity.
Qed.

Lemma handleResize_unchanged (this : SnapScroll) (n m : num) :
  getItemsToShow this = Returned n ->
  getItemsToScroll this = Returned m ->
  Num.strict_ne n (prevItemsToShow this) || Num.strict_ne m (prevItemsToScroll this) = false ->
  handleResize this = (Returned tt, this).
Proof.
  intros Hn Hm Hsame. unfold handleResize. unfold bind at 1 2 3 4. unfold get at 1 2 3 4.
  rewrite Hn, Hm. unfold prevItemsToShow, prevItemsToScroll in Hsame. rewrite Hsame.
  reflexivity.
Qed.

Lemma handleResize_changed (this : SnapScroll) (n m w : num) :
  getItemsToShow this = Returned n ->
  getItemsToScroll this = Returned m ->
  getItemWidth this = Returned w ->
  Num.strict_ne n (prevItemsToShow this) || Num.strict_ne m (prevItemsToScroll this) = true ->
  let itemWidth := (w + Options.gap (options this))%num in
  let currentIndex :=
    Num.round (Container.scrollLeft (container this) / (itemWidth * prevItemsToShow this))%num in
  handleResize this
  = (Returned tt,
     scrolled (currentIndex * (itemWidth * n))%num
       (set_items (map (fun _ => Some w) (items this))
          (set_currentBreakpoint (Some (Breakpoint.Make n m)) this))).
Proof.
  intros Hn Hm Hw Hchanged itemWidth currentIndex.
  unfold handleResize. unfold bind at 1 2 3 4. unfold get at 1 2 3 4.
  rewrite Hn, Hm. unfold prevItemsToShow, prevItemsToScroll in Hchanged. rewrite Hchanged.
  unfold bind at 1 2. unfold modify at 1. unfold get at 1.
  rewrite (getItemsToScroll_frame this) by done. rewrite Hm.
  unfold bind at 1. rewrite (update_None _ w) by (by rewrite (getItemWidth_frame this)).
  unfold bind, get, modify.
  rewrite (getItemWidth_frame this) by done. rewrite Hw.
  unfold scrolled, set_container, Container.set_scrollLeft, Container.set_scrollBehavior.
  simpl. destruct this as [[] ? ? ? ? ? ?]. reflexivity.
Qed.

Lemma handleResize_preserves (this : SnapScroll) :
  exists this',
    handleResize this = (Returned tt, this') /\
    options this' = options this /\
    isDragging this' = isDragging this /\
    startX this' = startX this /\
    scrollLeft this' = scrollLeft this /\
    length (items this') = length (items this) /\
    Container.offsetWidth (container this') = Container.offsetWidth (container this) /\
    Container.scrollBehavior (container this') = Container.scrollBehavior (container this) /\
    Container.cursor (container this') = Container.cursor (container this) /\
    Container.calls (container this') = Container.calls (container this).
Proof.
  destruct (getItemsToShow_returns this) as [n Hn].
  destruct (getItemsToScroll_returns this) as [m Hm].
  destruct (getItemWidth_returns this) as [w Hw].
  destruct (Num.strict_ne n (prevItemsToShow this)
            || Num.strict_ne m (prevItemsToScroll this)) eqn:Hc.
  - eexists. split; [by apply (handleResize_changed this n m w)|].
    simpl. rewrite length_map. repeat split.
  - exists this. split; [by apply (handleResize_unchanged this n m)|]. repeat split.
Qed.

Lemma prev_after_handleResize (this : SnapScroll) (n m : num) :
  getItemsToShow this = Returned n ->
  getItemsToScroll this = Returned m ->
  Num.truthy n = true ->
  Num.truthy m = true ->
  prevItemsToShow (handleResize this).2 = n /\
  prevItemsToScroll (handleResize this).2 = m.
Proof.
  intros Hn Hm Tn Tm.
  destruct (getItemWidth_returns this) as [w Hw].
  destruct (Num.strict_ne n (prevItemsToShow this)
            || Num.strict_ne m (prevItemsToScroll this)) eqn:Hc.
  - rewrite (handleResize_changed this n m w Hn Hm Hw Hc). cbn [snd].
    unfold prevItemsToShow, prevItemsToScroll. simpl. by rewrite Tn, Tm.
  - rewrite (handleResize_unchanged this n m Hn Hm Hc). cbn [snd].
    apply orb_false_iff in Hc as [H1 H2].
    by rewrite <- (strict_ne_false _ _ H1), <- (strict_ne_false _ _ H2).
Qed.

Lemma handleResize_noop_after (this : SnapScroll) (n m : num) :
  getItemsToShow this = Returned n ->
  getItemsToScroll this = Returned m ->
  Num.truthy n = true ->
  Num.truthy m = true ->
  forall this2,
    options this2 = options (handleResize this).2 ->
    currentBreakpoint this2 = currentBreakpoint (handleResize this).2 ->
    getItemsToShow this2 = Returned n ->
    getItemsToScroll this2 = Returned m ->
    handleResize this2 = (Returned tt, this2).
Proof.
  intros Hn Hm Tn Tm this2 Ho Hb Hn2 Hm2.
  destruct (prev_after_handleResize this n m Hn Hm Tn Tm) as [Hp Hq].
  apply (handleResize_unchanged this2 n m Hn2 Hm2).
  unfold prevItemsToShow, prevItemsToScroll in *. rewrite Ho, Hb, Hp, Hq.
  by rewrite !strict_ne_refl.
Qed.

(** X9: [handleResize] settles: when the resolved values are truthy, a
    second call right after a first changes nothing, and neither does a
    later call in any state with the same options, the same
    [currentBreakpoint] and the same resolved values: after scrolling or
    dragging, or at another container width on the same side of every
    breakpoint. *)
Theorem handleResize_settles (this : SnapScroll) (n m : num) :
  getItemsToShow this = Returned n ->
  getItemsToScroll this = Returned m ->
  Num.truthy n = true ->
  Num.truthy m = true ->
  handleResize (handleResize this).2 = (Returned tt, (handleResize this).2) /\
  forall this2,
    options this2 = options (handleResize this).2 ->
    currentBreakpoint this2 = currentBreakpoint (handleResize this).2 ->
    getItemsToShow this2 = Returned n ->
    getItemsToScroll this2 = Returned m ->
    handleResize this2 = (Returned tt, this2).
Proof.
  intros Hn Hm Tn Tm.
  pose proof (handleResize_noop_after this n m Hn Hm Tn Tm) as Hall.
  split; [|exact Hall]. apply Hall; [done | done | |].
  - destruct (handleResize_preserves this) as (this' & -> & Ho & _ & _ & _ & _ & Hw & _).
    cbn [snd]. by rewrite (getItemsToShow_frame this this').
  - destruct (handleResize_preserves this) as (this' & -> & Ho & _ & _ & _ & _ & Hw & _).
    cbn [snd]. by rewrite (getItemsToScroll_frame this this').
Qed.

(** The widget that grows to 1024 pixels: the second call is idle. *)
Lemma handleResize_settles_witness :
  handleResize (handleResize (resize_widget 1024)).2
  = (Returned tt, (handleResize (resize_widget 1024)).2).
Proof.
  destruct (handleResize_settles (resize_widget 1024) (of_Z 4) (of_Z 1)) as [H _];
    [vm_compute; reflexivity | vm_compute; reflexivity | reflexivity | reflexivity |].
  exact H.
Defined.

(** X10: with a winning override [itemsToScroll: 0] on a truthy base
    value, [handleResize] never settles: the resolved 0 differs from the
    previous value, which is read with [||] and so is never 0.  Every
    call, whatever [currentBreakpoint] and the scroll position are, takes
    the branch that lays the items out again and moves the container. *)
Theorem handleResize_repeats_on_zero_itemsToScroll
    (this : SnapScroll) (B : gmap Z Override.t) (k : Z) (config : Override.t) :
  Options.responsive (options this) = Some B ->
  active_breakpoint B (Container.offsetWidth (container this)) k config ->
  Override.itemsToScroll config = Some (of_Z 0) ->
  Num.truthy (Options.itemsToScroll (options this)) = true ->
  exists n w,
    getItemsToShow this = Returned n /\
    getItemWidth this = Returned w /\
    forall bp left,
      let this0 := set_currentBreakpoint bp (scrolled left this) in
      let itemWidth := (w + Options.gap (options this))%num in
      handleResize this0
      = (Returned tt,
         scrolled (Num.round (left / (itemWidth * prevItemsToShow this0)) * (itemWidth * n))%num
           (set_items (map (fun _ => Some w) (items this))
              (set_currentBreakpoint (Some (Breakpoint.Make n (of_Z 0))) this0))).
Proof.
  intros HB Hactive Hzero Hbase.
  destruct (getItemsToShow_returns this) as [n Hn].
  destruct (getItemWidth_returns this) as [w Hw].
  exists n, w. split; [done|]. split; [done|]. intros bp left this0 itemWidth.
  assert (getItemsToScroll this = Returned (of_Z 0)) as Hm.
  { rewrite (getItemsToScroll_active this B HB k config Hactive). by rewrite Hzero. }
  apply (handleResize_changed this0 n (of_Z 0) w).
  - by rewrite (getItemsToShow_frame this).
  - by rewrite (getItemsToScroll_frame this).
  - by rewrite (getItemWidth_frame this).
  - apply orb_true_iff. right. apply strict_ne_zero_truthy.
    unfold prevItemsToScroll. by apply or_else_truthy_default.
Qed.

(** The widget whose only breakpoint sets both values to 0, at width
    800. *)
Lemma handleResize_repeats_on_zero_itemsToScroll_witness :
  exists n w,
    getItemsToShow zero_widget = Returned n /\
    getItemWidth zero_widget = Returned w /\
    forall bp left,
      let this0 := set_currentBreakpoint bp (scrolled left zero_widget) in
      let itemWidth := (w + Options.gap (options zero_widget))%num in
      handleResize this0
      = (Returned tt,
         scrolled (Num.round (left / (itemWidth * prevItemsToShow this0)) * (itemWidth * n))%num
           (set_items (map (fun _ => Some w) (items zero_widget))
              (set_currentBreakpoint (Some (Breakpoint.Make n (of_Z 0))) this0))).
Proof.
  apply (handleResize_repeats_on_zero_itemsToScroll zero_widget zero_responsive 0
           (Override.Make (Some (of_Z 0)) (Some (of_Z 0))));
    [reflexivity | exact zero_active_0 | reflexivity | reflexivity].
Defined.

(** X11: [handleResize] returns for every state, and whichever branch it
    takes it leaves the options, the drag state, the container's width,
    scroll behaviour, cursor and calls, and the number of items as they
    are; [currentBreakpoint] is either kept or becomes the pair of the
    resolved values, and the scroll behaviour it sets to [auto] is put
    back. *)
Theorem handleResize_frame (this : SnapScroll) :
  exists this' n m,
    handleResize this = (Returned tt, this') /\
    getItemsToShow this = Returned n /\
    getItemsToScroll this = Returned m /\
    (this' = this \/ currentBreakpoint this' = Some (Breakpoint.Make n m)) /\
    options this' = options this /\
    isDragging this' = isDragging this /\
    startX this' = startX this /\
    scrollLeft this' = scrollLeft this /\
    length (items this') = length (items this) /\
    Container.offsetWidth (container this') = Container.offsetWidth (container this) /\
    Container.scrollBehavior (container this') = Container.scrollBehavior (container this) /\
    Container.cursor (container this') = Container.cursor (container this) /\
    Container.calls (container this') = Container.calls (container this).
Proof.
  destruct (getItemsToShow_returns this) as [n Hn].
  destruct (getItemsToScroll_returns this) as [m Hm].
  destruct (getItemWidth_returns this) as [w Hw].
  destruct (Num.strict_ne n (prevItemsToShow this)
            || Num.strict_ne m (prevItemsToScroll this)) eqn:Hc.
  - eexists _, n, m. split; [by apply (handleResize_changed this n m w)|].
    split; [done|]. split; [done|]. split; [by right|].
    simpl. rewrite length_map. repeat split.
  - exists this, n, m. split; [by apply (handleResize_unchanged this n m)|].
    split; [done|]. split; [done|]. split; [by left|]. repeat split.
Qed.



(** ** Laying the items out *)



Lemma Forall_map_const (w : num) (l : list (option num)) :
  Forall (eq (Some w)) (map (fun _ => Some w) l).
Proof. induction l; simpl; constructor; done. Qed.

Lemma map_const_laid (w : num) (l : list (option num)) :
  Forall (eq (Some w)) l -> map (fun _ => Some w) l = l.
Proof. induction 1 as [|x l <- _ IH]; simpl; by rewrite ?IH. Qed.

Lemma update_None_lays_out (this : SnapScroll) :
  exists this',
    update None this = (Returned tt, this') /\
    options this' = options this /\
    laid_out this' /\
    length (items this') = length (items this) /\
    container this' = container this /\
    currentBreakpoint this' = currentBreakpoint this /\
    update None this' = (Returned tt, this').
Proof.
  destruct (getItemWidth_returns this) as [w Hw].
  eexists. split; [by apply update_None|].
  split; [done|]. split; [|split; [|split; [done|split; [done|]]]].
  - exists w. split; [by rewrite (getItemWidth_frame this)|]. apply Forall_map_const.
  - simpl. by rewrite length_map.
  - rewrite (update_None _ w) by (by rewrite (getItemWidth_frame this)).
    unfold set_items. simpl.
    by rewrite (map_const_laid w) by apply Forall_map_const.
Qed.


(** X14: a resize that stays on the same side of every breakpoint is
    ignored.  On a widget that [handleResize] and [update] have laid out,
    a change of the container's width under which the resolved values
    stay the same makes [handleResize] return without calling [update]:
    the items keep the width computed for the old container width, which
    is no longer the width [getItemWidth] returns. *)
Theorem resize_within_breakpoint_is_ignored
    (this : SnapScroll) (w' : Z) (n g : Qc) (m : num) :
  getItemsToShow this = Returned (Fin n) ->
  getItemsToScroll this = Returned m ->
  n <> 0%Qc ->
  Num.truthy m = true ->
  Options.gap (options this) = Fin g ->
  items this <> [] ->
  getItemsToShow (resized w' (ready this)) = Returned (Fin n) ->
  getItemsToScroll (resized w' (ready this)) = Returned m ->
  w' <> Container.offsetWidth (container this) ->
  laid_out (ready this) /\
  handleResize (resized w' (ready this)) = (Returned tt, resized w' (ready this)) /\
  items (resized w' (ready this)) = items (ready this) /\
  ~ laid_out (resized w' (ready this)).
Proof.
  intros Hn Hm Hn0 Tm Hg Hitems Hn' Hm' Hw'.
  assert (Num.truthy (Fin n) = true) as Tn by (by apply bool_decide_eq_true).
  pose proof (handleResize_noop_after this (Fin n) m Hn Hm Tn Tm) as Hsettled.
  destruct (handleResize_preserves this)
    as (this1 & H1 & Ho1 & _ & _ & _ & Hlen1 & Hw1 & _).
  destruct (update_None_lays_out this1)
    as (this2 & H2 & Ho2 & Hlaid & Hlen2 & Hc2 & Hb2 & _).
  assert (ready this = this2) as Hready by (unfold ready; rewrite H1; cbn [snd]; by rewrite H2).
  rewrite Hready in *. clear Hready.
  split; [done|]. split; [|split; [done|]].
  - apply Hsettled; [| |done|done].
    + rewrite H1. cbn [snd]. simpl. by rewrite Ho2.
    + rewrite H1. cbn [snd]. simpl. by rewrite Hb2.
  - intros (w2 & Hw2 & Hall').
    destruct Hlaid as (w & Hw & Hall).
    assert (getItemWidth this2
            = Returned (Fin (Qc_of_Z (Container.offsetWidth (container this)) / n - g)%Qc))
      as Hwidth.
    { assert (getItemWidth this2 = getItemWidth this1) as ->
        by (by apply getItemWidth_frame; rewrite ?Ho2, ?Hc2).
      assert (getItemWidth this1 = getItemWidth this) as ->
        by (by apply getItemWidth_frame).
      rewrite (getItemWidth_formula this (Fin n) Hn), Hg.
      unfold Num.sub, of_Z. rewrite div_Fin by done. reflexivity. }
    assert (getItemWidth (resized w' this2) = Returned (Fin (Qc_of_Z w' / n - g)%Qc))
      as Hwidth'.
    { rewrite (getItemWidth_formula _ (Fin n) Hn').
      change (Options.gap (options (resized w' this2))) with (Options.gap (options this2)).
      rewrite Ho2, Ho1, Hg.
      unfold Num.sub, of_Z. rewrite div_Fin by done. reflexivity. }
    rewrite Hw in Hwidth. injection Hwidth as ->.
    rewrite Hw2 in Hwidth'. injection Hwidth' as ->.
    change (items (resized w' this2)) with (items this2) in Hall'.
    destruct (items this2) as [|x l] eqn:Hi.
    + apply Hitems. apply length_zero_iff_nil. by rewrite <- Hlen1, <- Hlen2.
    + apply Forall_cons in Hall as [<- _]. apply Forall_cons in Hall' as [Heq _].
      assert ((Qc_of_Z w' / n - g)%Qc
              = (Qc_of_Z (Container.offsetWidth (container this)) / n - g)%Qc) as Heq'
        by congruence.
      clear Heq. rename Heq' into Heq. apply Hw'. apply Z2Qc_inj.
      apply (Qcplus_inj_l (-g)%Qc) in Heq.
      replace (Qc_of_Z w') with (Qc_of_Z w' / n * n)%Qc by (field; done).
      rewrite Heq. field. done.
Qed.

(** The breakpoints at 0 and 1024 on a widget 800 pixels wide that is
    resized to 900: two items a page before and after, and the items keep
    the width 380 where [getItemWidth] now gives 430. *)
Lemma resize_within_breakpoint_is_ignored_witness :
  handleResize (resized 900 (ready (resize_widget 800)))
  = (Returned tt, resized 900 (ready (resize_widget 800))) /\
  items (resized 900 (ready (resize_widget 800))) = replicate 24 (Some (of_Z 380)) /\
  getItemWidth (resized 900 (ready (resize_widget 800))) = Returned (of_Z 430) /\
  ~ laid_out (resized 900 (ready (resize_widget 800))).
Proof.
  destruct (resize_within_breakpoint_is_ignored (resize_widget 800) 900
              (Qc_of_Z 2) (Qc_of_Z 20) (of_Z 1)) as (_ & H & _ & Hstale);
    [vm_compute; reflexivity | vm_compute; reflexivity | done | reflexivity | reflexivity
    | done | vm_compute; reflexivity | vm_compute; reflexivity | done |].
  split; [exact H|]. split; [compute_done|]. split; [compute_done|]. exact Hstale.
Defined.

(** ** The pagination dots *)

Lemma num_lt_of_Z (i c : Z) : num_lt (of_Z i) (of_Z c) = bool_decide (i < c).
Proof.
  unfold num_lt, of_Z. apply bool_decide_ext. symmetry. apply Z2Qc_inj_lt.
Qed.

Lemma create_dots_finite (fuel : nat) (c i : Z) (markFirst : bool) (dots : list dot) :
  0 <= i ->
  (Z.to_nat (c - i) < fuel)%nat ->
  create_dots fuel (of_Z c) i markFirst dots
  = Some (dots ++ ((fun j => Dot (markFirst && bool_decide (j = 0)) j) <$> seqZ i (c - i))).
Proof.
  revert i dots. induction fuel as [|fuel IH]; intros i dots Hi Hfuel; [lia|].
  cbn [create_dots]. rewrite num_lt_of_Z. case_bool_decide as Hlt.
  - rewrite IH by lia. rewrite (seqZ_cons i (c - i)) by lia.
    rewrite fmap_cons, <- app_assoc. cbn [app].
    by replace (Z.pred (c - i)) with (c - (i + 1)) by lia.
  - rewrite seqZ_nil by lia. by rewrite app_nil_r.
Qed.

Lemma create_dots_unbounded (fuel : nat) (i : Z) (markFirst : bool) (dots : list dot) :
  create_dots fuel PInf i markFirst dots = None.
Proof. revert i dots. induction fuel as [|fuel IH]; intros i dots; [done|]. simpl. apply IH. Qed.

Lemma Qceiling_div (k n : Z) :
  0 < n -> Qceiling (Qc_of_Z k / Qc_of_Z n)%Qc = - (- k / n).
Proof.
  intros Hn.
  assert ((Qc_of_Z k / Qc_of_Z n)%Qc == inject_Z k / inject_Z n)%Q as ->.
  { unfold Qcdiv, Qcmult, Qcinv, Q2Qc. simpl this. by rewrite !Qred_correct. }
  unfold Qceiling. f_equal.
  assert (- (inject_Z k / inject_Z n) == inject_Z (- k) / inject_Z n)%Q as ->.
  { rewrite inject_Z_opp. unfold Qdiv. ring. }
  symmetry. apply Zdiv_Qdiv.
Qed.

Lemma dots_itemCount_positive (this : SnapScroll) (n : Z) :
  getItemsToShow this = Returned (of_Z n) ->
  0 < n ->
  dots_itemCount this = Returned (of_Z (- (- Z.of_nat (length (items this)) / n))).
Proof.
  intros Hn Hpos. unfold dots_itemCount. rewrite Hn. cbn [bind_outcome].
  unfold of_Z at 1 2. rewrite div_Fin.
  - unfold num_ceil. by rewrite Qceiling_div.
  - rewrite <- Z2Qc_inj_0. intros ?%Z2Qc_inj. lia.
Qed.

Lemma ceiling_covers (k n : Z) :
  0 < n -> n * (- (- k / n) - 1) < k <= n * - (- k / n).
Proof.
  intros Hn. pose proof (Z.div_mod (- k) n ltac:(lia)).
  pose proof (Z.mod_pos_bound (- k) n Hn). nia.
Qed.



(** X15: with a resolved [itemsToShow] that is a positive integer [n],
    the loops of [addDots] and [updateDots] end and create one dot per
    page: the least [count] with [n * count] at least the number of
    items.  The dots carry the indices [0] to [count - 1] in order;
    [addDots] marks the first one active and [updateDots] leaves the
    marking to [updateActiveDot]. *)
Theorem addDots_covers_items (this : SnapScroll) (n : Z) :
  getItemsToShow this = Returned (of_Z n) ->
  0 < n ->
  exists count : Z,
    n * (count - 1) < Z.of_nat (length (items this)) <= n * count /\
    forall fuel : nat,
      (Z.to_nat count < fuel)%nat ->
      addDots fuel this = Some (Returned (dots_of (fun i => bool_decide (i = 0)) count)) /\
      updateDots fuel this = Some (updateActiveDot this (dots_of (fun _ => false) count)).
Proof.
  intros Hn Hpos. exists (- (- Z.of_nat (length (items this)) / n)).
  split; [by apply ceiling_covers|]. intros fuel Hfuel.
  unfold addDots, updateDots. rewrite (dots_itemCount_positive this n Hn Hpos).
  rewrite !create_dots_finite by (rewrite ?Z.sub_0_r; lia).
  rewrite Z.sub_0_r. done.
Qed.

(** 24 items, two per page: 12 dots. *)
Lemma addDots_covers_items_witness :
  addDots 13 paged_widget = Some (Returned (dots_of (fun i => bool_decide (i = 0)) 12)).
Proof.
  destruct (addDots_covers_items paged_widget 2) as (count & Hcount & H);
    [vm_compute; reflexivity | lia |].
  change (Z.of_nat (length (items paged_widget))) with 24 in Hcount.
  assert (count = 12) as -> by lia.
  apply (H 13%nat). lia.
Defined.

(** X16: with a resolved [itemsToShow] of 0 and at least one item, the dot
    count is [Infinity] and the loops of [addDots] and [updateDots] never
    end: no number of rounds completes them. *)
Theorem addDots_never_ends_without_itemsToShow (this : SnapScroll) :
  getItemsToShow this = Returned (of_Z 0) ->
  items this <> [] ->
  dots_itemCount this = Returned PInf /\
  forall fuel : nat, addDots fuel this = None /\ updateDots fuel this = None.
Proof.
  intros Hn Hitems.
  assert (dots_itemCount this = Returned PInf) as Hcount.
  { unfold dots_itemCount. rewrite Hn. cbn [bind_outcome]. f_equal.
    destruct (items this) as [|x l]; [done|].
    unfold of_Z, Num.div. case_decide as Hz; [|destruct Hz; apply Z2Qc_inj_0].
    replace (Qc_of_Z (Z.of_nat (length (x :: l))) ?= 0)%Qc with Gt; [done|].
    symmetry. apply Qcgt_alt. rewrite <- Z2Qc_inj_0.
    apply (proj1 (Z2Qc_inj_lt 0 _)). cbn [length]. lia. }
  split; [done|]. intros fuel. unfold addDots, updateDots. rewrite Hcount.
  by rewrite !create_dots_unbounded.
Qed.

(** A widget configured with [itemsToShow: 0]. *)
Lemma addDots_never_ends_without_itemsToShow_witness :
  dots_itemCount (widget 1000 (of_Z 0) (config_of 0 1 None)) = Returned PInf /\
  forall fuel : nat,
    addDots fuel (widget 1000 (of_Z 0) (config_of 0 1 None)) = None /\
    updateDots fuel (widget 1000 (of_Z 0) (config_of 0 1 None)) = None.
Proof.
  apply (addDots_never_ends_without_itemsToShow (widget 1000 (of_Z 0) (config_of 0 1 None)));
    [vm_compute; reflexivity | done].
Defined.



(** ** Releasing a drag *)



